(** * Raster window extraction over the CONUS grid

    A shallow embedding of [utils/raster_utils.py]: the affine transform
    between geographic and pixel coordinates, the projection of a geometry's
    vertices into window-local pixel space, and the extraction of the pixel
    window that covers a geometry plus a buffer.

    Numbers.  The Python code computes on floats; here every coordinate is a
    rational ([Q]), so the statements below are about the exact arithmetic of
    the formulas.  Pixel indices are integers ([Z]).

    Objects.  The dataset and the query geometry are owned by the caller and
    reached through references; the extraction runs in a small state and
    exception monad whose state holds those two objects, so that what a call
    leaves behind in them is part of its result. *)

From Stdlib Require Import QArith Qround Lqa ZArith Lia.
From stdpp Require Import gmap strings list.

(** ** Grid constants (raster_utils.py, lines 40-43) *)

Definition CONUS_LON_MIN : Q := (-125)%Q.
Definition CONUS_LON_MAX : Q := (-66)%Q.
Definition CONUS_LAT_MIN : Q := 24%Q.
Definition CONUS_LAT_MAX : Q := 50%Q.
Definition GRID_WIDTH : Z := 6435%Z.
Definition GRID_HEIGHT : Z := 2767%Z.

(** ** Python primitives used by the code *)

(** [min(a, b)] and [max(a, b)] of two arguments: Python keeps the first
    argument unless the second one is strictly smaller (resp. larger). *)
Definition py_min (a b : Q) : Q := if Qle_bool a b then a else b.
Definition py_max (a b : Q) : Q := if Qle_bool b a then a else b.

(** [int(x)]: truncation toward zero. *)
Definition py_int (x : Q) : Z := Z.quot (Qnum x) (Z.pos (Qden x)).

(** A slice bound [i] of a sequence of length [n]: a negative bound counts
    from the end, and both are cut to [0 .. n]. *)
Definition slice_bound (i n : Z) : Z :=
  if (i <? 0)%Z then Z.max 0 (i + n) else Z.min i n.

(** [l[start:stop]] with step 1. *)
Definition py_slice {A} (start stop : Z) (l : list A) : list A :=
  let n := Z.of_nat (length l) in
  let a := slice_bound start n in
  let b := slice_bound stop n in
  take (Z.to_nat (b - a)) (drop (Z.to_nat a) l).

(** ** Coordinate transform (lines 64-75) *)

Definition lonlat_to_pixel (lon lat : Q) : Q * Q :=
  let px := ((lon - CONUS_LON_MIN) / (CONUS_LON_MAX - CONUS_LON_MIN)
             * inject_Z GRID_WIDTH)%Q in
  let py := ((CONUS_LAT_MAX - lat) / (CONUS_LAT_MAX - CONUS_LAT_MIN)
             * inject_Z GRID_HEIGHT)%Q in
  (px, py).

Definition pixel_to_lonlat (px py : Q) : Q * Q :=
  let lon := (CONUS_LON_MIN
              + px / inject_Z GRID_WIDTH * (CONUS_LON_MAX - CONUS_LON_MIN))%Q in
  let lat := (CONUS_LAT_MAX
              - py / inject_Z GRID_HEIGHT * (CONUS_LAT_MAX - CONUS_LAT_MIN))%Q in
  (lon, lat).

(** ** Exceptions *)

Inductive exn : Type :=
  | IndexError
  | KeyError
  | ValueError
  | NotImplementedError
  | OverflowError.

(** What a call does: it returns a value or raises. *)
Inductive outcome (A : Type) : Type :=
  | Returns (a : A)
  | Raises (e : exn).
Arguments Returns {A} a.
Arguments Raises {A} e.

(** ** Geometries *)

Definition vertex : Type := Q * Q.

(** What [geometry_to_pixel_coords] can see of a geometry: an [exterior]
    ring (polygons), a coordinate sequence [coords] (lines and points), or
    neither attribute.  The coordinates of the geometry library are pairs,
    or triples when the geometry has a third dimension.  A multi-part
    geometry (a multi-polygon, a collection) has no [exterior], and reading
    its [coords] raises [NotImplementedError]. *)
Inductive coord_access : Type :=
  | Exterior (ring : list vertex)
  | Coords (cs : list vertex)
  | NoCoords
  | Exterior3D (ring : list (Q * Q * Q))
  | Coords3D (cs : list (Q * Q * Q))
  | MultiPart.

(** A geometry object: its [bounds] attribute [(minx, miny, maxx, maxy)] and
    the coordinate sequence it exposes. *)
Record geometry : Type := Geometry {
  bounds : Q * Q * Q * Q;
  access : coord_access
}.

(** [shapely.geometry.box(minx, miny, maxx, maxy)], the polygon built by
    [extract_raster_for_bounds] (line 147): a closed ring through the four
    corners, starting at [(maxx, miny)]; its bounds are those of the ring,
    so they are in order also when the arguments are not. *)
Definition box (minx miny maxx maxy : Q) : geometry :=
  {| bounds := (py_min minx maxx, py_min miny maxy,
                py_max minx maxx, py_max miny maxy);
     access := Exterior [(maxx, miny); (maxx, maxy); (minx, maxy);
                         (minx, miny); (maxx, miny)] |}.

(** The vertices [(lon, lat)] of the coordinate sequence of a geometry. *)
Definition coordinate_sequence (g : geometry) : list vertex :=
  match access g with
  | Exterior ring => ring
  | Coords cs => cs
  | NoCoords => []
  | Exterior3D ring => map fst ring
  | Coords3D cs => map fst cs
  | MultiPart => []
  end.

(** ** Geometry-to-pixel projection (lines 78-91) *)

(** A coordinate tuple as the loop of line 88 receives it. *)
Inductive coord_tuple : Type :=
  | XY (x y : Q)
  | XYZ (x y z : Q).

(** Lines 80-85: the [hasattr] chain.  [Returns None] stands for the
    [else] branch.  [hasattr] lets every exception but [AttributeError]
    through, so the [NotImplementedError] of a multi-part geometry leaves
    the function. *)
Definition read_coords (g : geometry) : outcome (option (list coord_tuple)) :=
  match access g with
  | Exterior ring => Returns (Some (map (fun v => XY (fst v) (snd v)) ring))
  | Exterior3D ring =>
      Returns (Some (map (fun v => XYZ (fst (fst v)) (snd (fst v)) (snd v))
                         ring))
  | Coords cs => Returns (Some (map (fun v => XY (fst v) (snd v)) cs))
  | Coords3D cs =>
      Returns (Some (map (fun v => XYZ (fst (fst v)) (snd (fst v)) (snd v))
                         cs))
  | MultiPart => Raises NotImplementedError
  | NoCoords => Returns None
  end.

(** Lines 88-90: [for lon, lat in coords]; a tuple of three numbers cannot
    be unpacked into two and raises [ValueError]. *)
Fixpoint project_loop (coords : list coord_tuple) (x_offset y_offset : Q)
    (pixel_coords : list (Q * Q)) : outcome (list (Q * Q)) :=
  match coords with
  | [] => Returns pixel_coords
  | XY lon lat :: rest =>
      let '(px, py) := lonlat_to_pixel lon lat in
      project_loop rest x_offset y_offset
        (pixel_coords ++ [((px - x_offset)%Q, (py - y_offset)%Q)])
  | XYZ _ _ _ :: _ => Raises ValueError
  end.

Definition geometry_to_pixel_coords (g : geometry) (x_offset y_offset : Q)
  : outcome (list (Q * Q)) :=
  match read_coords g with
  | Raises e => Raises e
  | Returns None => Returns []
  | Returns (Some coords) => project_loop coords x_offset y_offset []
  end.

(** ** The pixel window (lines 108-125) *)

Definition pixel_bounds : Type := Z * Z * Z * Z.

(** Lines 120-123: [int(max(0, min(v, limit - 1)))]. *)
Definition clamp_index (v : Q) (limit : Z) : Z :=
  py_int (py_max 0 (py_min v (inject_Z (limit - 1)))).

(** Lines 108-123: the buffered bounding box mapped to pixels and clamped. *)
Definition buffered_window (b : Q * Q * Q * Q) (buffer_km : Q) : pixel_bounds :=
  let '(minx, miny, maxx, maxy) := b in
  let buffer_deg := (buffer_km / 111.0)%Q in
  let lon_min := (minx - buffer_deg)%Q in
  let lon_max := (maxx + buffer_deg)%Q in
  let lat_min := (miny - buffer_deg)%Q in
  let lat_max := (maxy + buffer_deg)%Q in
  let '(x_min, y_max_pix) := lonlat_to_pixel lon_min lat_max in
  let '(x_max, y_min_pix) := lonlat_to_pixel lon_max lat_min in
  let x_min := clamp_index x_min GRID_WIDTH in
  let x_max := clamp_index x_max GRID_WIDTH in
  let y_min := clamp_index y_max_pix GRID_HEIGHT in
  let y_max := clamp_index y_min_pix GRID_HEIGHT in
  (x_min, x_max, y_min, y_max).

(** Line 125: the test that rejects an empty window. *)
Definition degenerate (w : pixel_bounds) : bool :=
  let '(x_min, x_max, y_min, y_max) := w in
  (x_max <=? x_min)%Z || (y_max <=? y_min)%Z.

(** ** The dataset *)

(** A cell of a raster variable: a number, or the missing-data marker. *)
Inductive cell : Type :=
  | NaN
  | Value (v : Q).

(** A two-dimensional variable with dimensions [(y, x)]: a list of rows,
    row 0 being the northern edge. *)
Definition array : Type := list (list cell).

(** [a] has [h] rows of [w] columns each (numpy's [a.shape == (h, w)]). *)
Definition has_shape (a : array) (h w : Z) : Prop :=
  Z.of_nat (length a) = h /\ Forall (fun row => Z.of_nat (length row) = w) a.

Record dataset : Type := Dataset {
  data_vars : gmap string array
}.

(** [da.isel(x=slice(x_min, x_max), y=slice(y_min, y_max)).values] *)
Definition isel (a : array) (x_min x_max y_min y_max : Z) : array :=
  map (py_slice x_min x_max) (py_slice y_min y_max a).

(** ** The caller's objects and the monad of the extraction *)

(** What the caller may pass as [geometry]: a geometry object (no
    [geometry] attribute), an object whose [geometry] attribute is a single
    geometry, or a table whose [geometry] column is indexed with [iloc]. *)
Inductive query : Type :=
  | Shape (g : geometry)
  | Holder (g : geometry)
  | Frame (rows : list geometry).

Record caller_objects : Type := Objects {
  ds : dataset;
  geometry_arg : query
}.

(** A computation reads and may update the caller's objects, and returns a
    value or raises. *)
Definition M (A : Type) : Type := caller_objects -> outcome A * caller_objects.

#[export] Instance M_ret : MRet M := fun A a s => (Returns a, s).
#[export] Instance M_bind : MBind M := fun A B f m s =>
  match m s with
  | (Returns a, s') => f a s'
  | (Raises e, s') => (Raises e, s')
  end.

Definition raise {A} (e : exn) : M A := fun s => (Raises e, s).
Definition get_objects : M caller_objects := fun s => (Returns s, s).
Definition put_objects (s' : caller_objects) : M unit := fun _ => (Returns tt, s').

(** Lines 100-103: the geometry the argument stands for. *)
Definition read_geometry : M geometry :=
  s ← get_objects;
  match geometry_arg s with
  | Shape g => mret g
  | Holder g => mret g
  | Frame rows =>
      match rows with
      | g :: _ => mret g
      | [] => raise IndexError
      end
  end.

(** Line 129: [variable_name in ds.data_vars]. *)
Definition has_data_var (variable_name : string) : M bool :=
  s ← get_objects;
  mret (bool_decide (is_Some (data_vars (ds s) !! variable_name))).

(** Lines 130-133: [ds[variable_name].isel(...).values]. *)
Definition read_window (variable_name : string) (x_min x_max y_min y_max : Z)
  : M array :=
  s ← get_objects;
  match data_vars (ds s) !! variable_name with
  | Some a => mret (isel a x_min x_max y_min y_max)
  | None => raise KeyError
  end.

(** ** Raster window extraction (lines 94-136) *)

(** The returned triple [(data, pixel_bounds, geom)]; [None] is Python's
    [None]. *)
Definition extraction : Type :=
  option array * option pixel_bounds * option geometry.

Definition extract_raster_for_geometry (variable_name : string) (buffer_km : Q)
  : M extraction :=
  geom ← read_geometry;
  let '(x_min, x_max, y_min, y_max) := buffered_window (bounds geom) buffer_km in
  if ((x_max <=? x_min)%Z || (y_max <=? y_min)%Z) then
    mret (None, None, None)
  else
    present ← has_data_var variable_name;
    if (present : bool) then
      data ← read_window variable_name x_min x_max y_min y_max;
      mret (Some data, Some (x_min, x_max, y_min, y_max), Some geom)
    else
      mret (None, None, None).

(** A call [extract_raster_for_geometry(ds, variable_name, geometry,
    buffer_km)]: what it returns or raises, and the two objects afterwards. *)
Definition call_extract (d : dataset) (variable_name : string) (q : query)
    (buffer_km : Q) : outcome extraction * caller_objects :=
  extract_raster_for_geometry variable_name buffer_km
    {| ds := d; geometry_arg := q |}.

Definition extract_result (d : dataset) (variable_name : string) (q : query)
    (buffer_km : Q) : outcome extraction :=
  fst (call_extract d variable_name q buffer_km).

(** Line 148: [extract_raster_for_bounds]. *)
Definition extract_raster_for_bounds (d : dataset) (variable_name : string)
    (lon_min lon_max lat_min lat_max : Q) : outcome extraction :=
  extract_result d variable_name (Shape (box lon_min lat_min lon_max lat_max)) 0.

(** ** Notions used in the statements *)

Local Open Scope Q_scope.

(** The value handed to [int] at lines 120-123. *)
Definition clamped (v hi : Q) : Q := py_max 0 (py_min v hi).

(** The geometry an argument stands for, when there is one. *)
Definition geometry_of (q : query) : option geometry :=
  match q with
  | Shape g => Some g
  | Holder g => Some g
  | Frame rows => head rows
  end.

(** The all-null result. *)
Definition nulls : extraction := (None, None, None).

(** The bounding box [(minx, miny, maxx, maxy)] meets the rectangle
    [CONUS_LON_MIN .. CONUS_LON_MAX] by [CONUS_LAT_MIN .. CONUS_LAT_MAX]. *)
Definition bbox_intersects_grid (b : Q * Q * Q * Q) : Prop :=
  let '(minx, miny, maxx, maxy) := b in
  minx <= CONUS_LON_MAX /\ CONUS_LON_MIN <= maxx /\
  miny <= CONUS_LAT_MAX /\ CONUS_LAT_MIN <= maxy.

(** The bounding box lies entirely outside that rectangle: west, east, south
    or north of it. *)
Definition bbox_outside_grid (b : Q * Q * Q * Q) : Prop :=
  let '(minx, miny, maxx, maxy) := b in
  maxx < CONUS_LON_MIN \/ CONUS_LON_MAX < minx \/
  maxy < CONUS_LAT_MIN \/ CONUS_LAT_MAX < miny.

(** ** Sample inputs *)

(** A one-variable dataset with a two-by-two raster, for the examples. *)
Definition small_dataset : dataset :=
  {| data_vars := {[ "LCZ_2020"%string :=
                       [[Value 6; Value 6]; [NaN; Value 14]] ]} |}.

(** The box of the scenario: longitudes -112.5 .. -111.5, latitudes
    33.5 .. 34.0. *)
Definition scenario_box : geometry := box (-112.5) 33.5 (-111.5) 34.0.

(** The box that covers the whole grid extent. *)
Definition conus_box : geometry :=
  box CONUS_LON_MIN CONUS_LAT_MIN CONUS_LON_MAX CONUS_LAT_MAX.

(** A box in the Southern Hemisphere. *)
Definition southern_box : geometry := box (-60) (-35) (-50) (-20).

(** An array of the shape of the grid, and a dataset that holds it. *)
Definition conus_array : array :=
  replicate (Z.to_nat GRID_HEIGHT) (replicate (Z.to_nat GRID_WIDTH) (Value 6)).

Definition conus_dataset : dataset :=
  {| data_vars := {[ "LCZ_2020"%string := conus_array ]} |}.

(** * Further code

    The rest of [utils/raster_utils.py] that computes (the extraction for a
    city, the parser of drawn geometries, the LCZ colour map), and the
    table helpers the pages call from [utils/data_loader.py] and
    [utils/chart_utils.py] (filtering, LCZ names, variable groups, summary
    cards).  File and network access, plotting and the geometry library are
    not modelled: where a function reads its input from a loaded file, the
    model takes that input as an argument. *)

(** ** Extraction for a city (raster_utils.py, lines 139-142) *)

(** [city_gdf] is a table of geometries; its first row is taken with
    [iloc[0]] before the extraction is called. *)
Definition extract_raster_for_city (d : dataset) (variable_name : string)
    (city_gdf : list geometry) (buffer_km : Q) : outcome extraction :=
  match city_gdf with
  | geom :: _ => extract_result d variable_name (Shape geom) buffer_km
  | [] => Raises IndexError
  end.

(** ** Further notions used in the statements *)

(** Every vertex of the coordinate sequence lies in the geometry's bounding
    box. *)
Definition vertices_within_bounds (g : geometry) : Prop :=
  let '(minx, miny, maxx, maxy) := bounds g in
  Forall (fun v : vertex => minx <= fst v <= maxx /\ miny <= snd v <= maxy)
         (coordinate_sequence g).

(** The bounding box lies inside the grid extent. *)
Definition bbox_within_grid (b : Q * Q * Q * Q) : Prop :=
  let '(minx, miny, maxx, maxy) := b in
  CONUS_LON_MIN <= minx /\ maxx <= CONUS_LON_MAX /\
  CONUS_LAT_MIN <= miny /\ maxy <= CONUS_LAT_MAX.

(** The box [inner] lies inside the box [outer]. *)
Definition bbox_nested (inner outer : Q * Q * Q * Q) : Prop :=
  let '(minx1, miny1, maxx1, maxy1) := inner in
  let '(minx2, miny2, maxx2, maxy2) := outer in
  minx2 <= minx1 /\ miny2 <= miny1 /\ maxx1 <= maxx2 /\ maxy1 <= maxy2.

(** The bounding box grown by [buffer_km] on every side (lines 109-113). *)
Definition buffered_bbox (b : Q * Q * Q * Q) (buffer_km : Q) : Q * Q * Q * Q :=
  let '(minx, miny, maxx, maxy) := b in
  (minx - buffer_km / 111.0, miny - buffer_km / 111.0,
   maxx + buffer_km / 111.0, maxy + buffer_km / 111.0).

(** ** Further sample inputs *)

(** A box inside the scenario box. *)
Definition inner_box : geometry := box (-112.2) 33.6 (-111.8) 33.9.

(** The box does not reach into the interior of the grid extent: it lies
    outside it or only touches its border. *)
Definition bbox_misses_grid (b : Q * Q * Q * Q) : Prop :=
  let '(minx, miny, maxx, maxy) := b in
  maxx <= CONUS_LON_MIN \/ CONUS_LON_MAX <= minx \/
  maxy <= CONUS_LAT_MIN \/ CONUS_LAT_MAX <= miny.

(** [a.size]: the number of cells. *)
Definition array_size (a : array) : Z := Z.of_nat (length (concat a)).

(** A point geometry. *)
Definition phoenix_point : geometry :=
  {| bounds := (-112.07, 33.45, -112.07, 33.45);
     access := Coords [(-112.07, 33.45)] |}.

(** A box east of the grid, more than 5 km from its border. *)
Definition atlantic_box : geometry := box (-65.9) 30 (-65) 31.

(** ** Drawn geometries (raster_utils.py, lines 304-330) *)

(** A GeoJSON position: [[lon, lat]], possibly followed by an altitude. *)
Definition position : Type := list Q.

(** The [geometry] member of a drawn feature: its [type] and its
    [coordinates], which the code reads for a polygon only, where they are a
    list of rings (the exterior ring first, then the holes). *)
Record geojson_geometry : Type := GeoJSON {
  geo_type : string;
  coordinates : list (list position)
}.

(** A drawing: [None] or an empty dictionary, or a feature dictionary that
    may have a [geometry] member. *)
Inductive drawing : Type :=
  | NoDrawing
  | Feature (geometry_member : option geojson_geometry).

(** The dictionary returned by the map component; [None] stands for a
    missing key and, for [all_drawings], also for the value [None]. *)
Record map_dict : Type := MapDict {
  last_active_drawing : option drawing;
  all_drawings : option (list drawing)
}.

(** The argument [map_data]: [None] or an empty dictionary, or a dictionary
    with members. *)
Inductive map_data : Type :=
  | NoMapData
  | MapData (m : map_dict).

(** [[(c[0], c[1]) for c in coords]]: a position with fewer than two
    numbers raises [IndexError]. *)
Fixpoint first_two (coords : list position) : outcome (list vertex) :=
  match coords with
  | [] => Returns []
  | c :: rest =>
      match c with
      | lon :: lat :: _ =>
          match first_two rest with
          | Returns vs => Returns ((lon, lat) :: vs)
          | Raises e => Raises e
          end
      | _ => Raises IndexError
      end
  end.

(** [return Polygon(...)]: the polygon the constructor builds, or the
    exception it raises. *)
Definition constructed {R : Type} (r : outcome R) : outcome (option R) :=
  match r with
  | Returns polygon => Returns (Some polygon)
  | Raises e => Raises e
  end.

(** Lines 314-319 and again lines 324-328: what one drawing contributes.
    [Returns None] stands for falling through to the code that follows.
    [Polygon] is the constructor of the geometry library, which returns a
    polygon or raises (for a ring of one or two positions, [ValueError]). *)
Definition drawn_polygon {R : Type} (Polygon : list vertex -> outcome R)
    (dr : drawing) : outcome (option R) :=
  match dr with
  | Feature (Some geom_dict) =>
      if String.eqb (geo_type geom_dict) "Polygon" then
        match coordinates geom_dict with
        | coords :: _ =>
            match first_two coords with
            | Returns vs => constructed (Polygon vs)
            | Raises e => Raises e
            end
        | [] => Raises IndexError
        end
      else Returns None
  | _ => Returns None
  end.

(** Lines 323-328: the loop over [all_drawings]. *)
Fixpoint first_drawn_polygon {R : Type} (Polygon : list vertex -> outcome R)
    (drawings : list drawing) : outcome (option R) :=
  match drawings with
  | [] => Returns None
  | dr :: rest =>
      match drawn_polygon Polygon dr with
      | Returns None => first_drawn_polygon Polygon rest
      | r => r
      end
  end.

Definition parse_drawn_geometry {R : Type}
    (Polygon : list vertex -> outcome R) (data : map_data)
  : outcome (option R) :=
  match data with
  | NoMapData => Returns None
  | MapData m =>
      match
        match last_active_drawing m with
        | Some dr => drawn_polygon Polygon dr
        | None => Returns None
        end
      with
      | Returns None =>
          match all_drawings m with
          | Some drawings => first_drawn_polygon Polygon drawings
          | None => Returns None
          end
      | r => r
      end
  end.

(** A drawing is a polygon feature with the given rings. *)
Definition polygon_feature (rings : list (list position)) : drawing :=
  Feature (Some {| geo_type := "Polygon"; coordinates := rings |}).

(** A drawing from which the code takes nothing: no dictionary, no
    [geometry] member, or a geometry that is not a polygon. *)
Definition not_a_polygon (dr : drawing) : Prop :=
  match dr with
  | Feature (Some geom_dict) => geo_type geom_dict <> "Polygon"%string
  | _ => True
  end.

(** A position with at least two numbers, given by its vertex and what
    follows it. *)
Definition position_of (p : vertex * list Q) : position :=
  fst (fst p) :: snd (fst p) :: snd p.

(** A drawing from which the code takes a polygon or nothing without
    raising: every polygon feature has a ring, whose positions have two
    numbers or more. *)
Definition well_formed_drawing (dr : drawing) : Prop :=
  match dr with
  | Feature (Some geom_dict) =>
      geo_type geom_dict = "Polygon"%string ->
      exists ring holes,
        coordinates geom_dict = map position_of ring :: holes
  | _ => True
  end.

(** A drawn marker, and the ring of a drawn rectangle (one position with an
    altitude). *)
Definition marker_drawing : drawing :=
  Feature (Some {| geo_type := "Point"; coordinates := [] |}).

Definition drawn_ring : list (vertex * list Q) :=
  [((-112.5, 33.5), []); ((-111.5, 33.5), [0]); ((-111.5, 34.0), []);
   ((-112.5, 34.0), []); ((-112.5, 33.5), [])].

(** A ring of two positions. *)
Definition short_ring : list (vertex * list Q) :=
  [((-112.5, 33.5), []); ((-111.5, 33.5), [])].

(** A constructor that, like the library's, keeps the ring and rejects a
    ring of one or two positions. *)
Definition ring_polygon (vs : list vertex) : outcome (list vertex) :=
  match vs with
  | [_] | [_; _] => Raises ValueError
  | _ => Returns vs
  end.

(** ** The LCZ colour map (raster_utils.py, lines 23-29 and 46-54) *)

Definition LCZ_CMAP_COLORS : gmap Z string :=
  list_to_map
    [(1%Z, "#8E0000"); (2%Z, "#D30000"); (3%Z, "#FF0000"); (4%Z, "#8E4B00");
     (5%Z, "#D36F00"); (6%Z, "#FF8E00"); (7%Z, "#FFCC00"); (8%Z, "#FFE680");
     (9%Z, "#FFEBB3"); (10%Z, "#999999"); (11%Z, "#006A00");
     (12%Z, "#00A000"); (13%Z, "#78D000"); (14%Z, "#CCFF66");
     (15%Z, "#A0A0A0"); (16%Z, "#E6CBA8"); (17%Z, "#4A97C9")]%string.

(** [numpy.arange(start, stop, step)]: [ceil((stop - start) / step)] values
    [start + i * step]. *)
Definition np_arange (start stop step : Q) : list Q :=
  map (fun i : nat => start + inject_Z (Z.of_nat i) * step)
      (seq 0 (Z.to_nat (Qceiling ((stop - start) / step)))).

(** The colours of the listed colour map, and the boundaries and the number
    of colours handed to the boundary norm. *)
Definition create_lcz_colormap : list string * (list Q * Z) :=
  let colors :=
    fold_left (fun colors i =>
                 colors ++ [default "#ffffff"%string (LCZ_CMAP_COLORS !! i)])
              (seqZ 1 17) ["#ffffff"%string] in
  let bounds := np_arange (-0.5) 18.5 1 in
  (colors, (bounds, Z.of_nat (length colors))).

(** ** LCZ names and colours (data_loader.py, lines 252-278) *)

Definition LCZ_CLASSES : gmap Z (string * string) :=
  list_to_map
    [(1%Z, ("Compact high-rise", "#8c0000"));
     (2%Z, ("Compact mid-rise", "#d10000"));
     (3%Z, ("Compact low-rise", "#ff0000"));
     (4%Z, ("Open high-rise", "#bf4d00"));
     (5%Z, ("Open mid-rise", "#ff6600"));
     (6%Z, ("Open low-rise", "#ff9955"));
     (7%Z, ("Lightweight low-rise", "#faee05"));
     (8%Z, ("Large low-rise", "#bcbcbc"));
     (9%Z, ("Sparsely built", "#ffccaa"));
     (10%Z, ("Heavy industry", "#555555"));
     (11%Z, ("Dense trees", "#006a00"));
     (12%Z, ("Scattered trees", "#00aa00"));
     (13%Z, ("Bush, scrub", "#648c14"));
     (14%Z, ("Low plants", "#b9db79"));
     (15%Z, ("Bare rock/paved", "#000000"));
     (16%Z, ("Bare soil/sand", "#fbf7ae"));
     (17%Z, ("Water", "#6a6aff"))]%string.

(** A number as the functions may receive it: a finite value, an infinity
    or not-a-number (a missing class in the table). *)
Inductive py_float : Type :=
  | Finite (x : Q)
  | Infinity
  | NotANumber.

(** [int(x)]: truncation of a finite value; [OverflowError] for an
    infinity and [ValueError] for not-a-number. *)
Definition int_of_float (x : py_float) : outcome Z :=
  match x with
  | Finite q => Returns (py_int q)
  | Infinity => Raises OverflowError
  | NotANumber => Raises ValueError
  end.

Definition get_lcz_color (lcz_class : py_float) : outcome string :=
  match int_of_float lcz_class with
  | Returns k =>
      Returns (snd (default ("Unknown", "#808080")%string (LCZ_CLASSES !! k)))
  | Raises e => Raises e
  end.

Definition get_lcz_name (lcz_class : py_float) : outcome string :=
  match int_of_float lcz_class with
  | Returns k =>
      Returns (fst (default ("Unknown", "#808080")%string (LCZ_CLASSES !! k)))
  | Raises e => Raises e
  end.

(** ** Filtering the analysis table (data_loader.py, lines 168-208) *)

(** A row of the analysis table. *)
Record row : Type := Row {
  City : string;
  Region : string;
  Year : Z;
  Season : string;
  Time : string;
  LCZ_Class : Z;
  SUHI : Q;
  UMI : Q
}.

(** A filter argument: [None], one value, or a list of values. *)
Inductive criterion (A : Type) : Type :=
  | NotGiven
  | One (a : A)
  | Many (l : list A).
Arguments NotGiven {A}.
Arguments One {A} a.
Arguments Many {A} l.

(** Python's truth value of a string (non-empty) and of an integer
    (non-zero). *)
Definition truthy_string (s : string) : bool := negb (String.eqb s "").
Definition truthy_int (n : Z) : bool := negb (n =? 0)%Z.

(** [if city:] - the truth value of the argument. *)
Definition given {A} (truthy : A -> bool) (c : criterion A) : bool :=
  match c with
  | NotGiven => false
  | One a => truthy a
  | Many l => match l with [] => false | _ :: _ => true end
  end.

(** [column == value], or [column.isin(values)] for a list. *)
Definition matches {A} (eqb : A -> A -> bool) (c : criterion A) (x : A) : bool :=
  match c with
  | NotGiven => true
  | One a => eqb x a
  | Many l => existsb (eqb x) l
  end.

(** One [if] block of [filter_data]: the rows are kept as they are when the
    argument is not given, and narrowed to the matching ones otherwise. *)
Definition narrow {A} (truthy : A -> bool) (eqb : A -> A -> bool)
    (column : row -> A) (c : criterion A) (filtered : list row) : list row :=
  if given truthy c then List.filter (fun r => matches eqb c (column r)) filtered
  else filtered.

Definition filter_data (df : list row) (city region : criterion string)
    (year : criterion Z) (season time : criterion string)
    (lcz_class : criterion Z) : list row :=
  let filtered := df in
  let filtered := narrow truthy_string String.eqb City city filtered in
  let filtered := narrow truthy_string String.eqb Region region filtered in
  let filtered := narrow truthy_int Z.eqb Year year filtered in
  let filtered := narrow truthy_string String.eqb Season season filtered in
  let filtered := narrow truthy_string String.eqb Time time filtered in
  let filtered := narrow truthy_int Z.eqb LCZ_Class lcz_class filtered in
  filtered.

(** A row passes an argument: the argument is not given, or the row's value
    is the given one, or one of the given ones. *)
Definition passes {A} (truthy : A -> bool) (c : criterion A) (x : A) : Prop :=
  match c with
  | NotGiven => True
  | One a => truthy a = true -> x = a
  | Many l => l <> [] -> In x l
  end.

(** The argument that is given, of two of which at most one is. *)
Definition either {A} (truthy : A -> bool) (c1 c2 : criterion A)
  : criterion A :=
  if given truthy c1 then c1 else c2.

(** Sample rows. *)
Definition sample_rows : list row :=
  [ {| City := "Phoenix"; Region := "West"; Year := 2020; Season := "summer";
       Time := "Day"; LCZ_Class := 6; SUHI := 4.5; UMI := -1.5 |};
    {| City := "Phoenix"; Region := "West"; Year := 2020; Season := "summer";
       Time := "Night"; LCZ_Class := 6; SUHI := 2.5; UMI := -0.5 |};
    {| City := "Boston"; Region := "Northeast"; Year := 2015;
       Season := "winter"; Time := "Day"; LCZ_Class := 2; SUHI := 1.5;
       UMI := 0.5 |} ].

(** The test one [if] block of [filter_data] applies to a value, and the
    test the six blocks together apply to a row. *)
Definition keeps {A} (truthy : A -> bool) (eqb : A -> A -> bool)
    (c : criterion A) (x : A) : bool :=
  implb (given truthy c) (matches eqb c x).

Definition kept (city region : criterion string) (year : criterion Z)
    (season time : criterion string) (lcz_class : criterion Z) (r : row)
  : bool :=
  keeps truthy_string String.eqb city (City r) &&
  keeps truthy_string String.eqb region (Region r) &&
  keeps truthy_int Z.eqb year (Year r) &&
  keeps truthy_string String.eqb season (Season r) &&
  keeps truthy_string String.eqb time (Time r) &&
  keeps truthy_int Z.eqb lcz_class (LCZ_Class r).

(** ** Summary cards (chart_utils.py, lines 317-346) and the derived column
    (data_loader.py, line 73) *)

(** The column [UDI], computed on loading as the negated [UMI]. *)
Definition UDI (r : row) : Q := - UMI r.

(** [Series.mean()], [Series.max()] and [Series.min()] of a column without
    missing values; the code calls them on non-empty columns only. *)
Definition series_mean (xs : list Q) : Q :=
  fold_right Qplus 0 xs / inject_Z (Z.of_nat (length xs)).

Definition series_max (xs : list Q) : Q :=
  match xs with
  | [] => 0
  | x :: rest => fold_left (fun m y => if Qle_bool m y then y else m) rest x
  end.

Definition series_min (xs : list Q) : Q :=
  match xs with
  | [] => 0
  | x :: rest => fold_left (fun m y => if Qle_bool y m then y else m) rest x
  end.

Record metrics : Type := Metrics {
  suhi_day : Q;
  suhi_night : Q;
  umi_day : Q;
  umi_night : Q;
  udi_day : Q;
  udi_night : Q;
  max_suhi : Q;
  min_suhi : Q;
  avg_suhi : Q
}.

Definition create_metrics_cards_data (df : list row) (city : option string)
  : metrics :=
  let df :=
    match city with
    | Some c =>
        if truthy_string c then List.filter (fun r => String.eqb (City r) c) df
        else df
    | None => df
    end in
  let summer_day :=
    List.filter (fun r => String.eqb (Season r) "summer" &&
                          String.eqb (Time r) "Day") df in
  let summer_night :=
    List.filter (fun r => String.eqb (Season r) "summer" &&
                          String.eqb (Time r) "Night") df in
  {| suhi_day := if (0 <? length summer_day)%nat
                 then series_mean (map SUHI summer_day) else 0;
     suhi_night := if (0 <? length summer_night)%nat
                   then series_mean (map SUHI summer_night) else 0;
     umi_day := if (0 <? length summer_day)%nat
                then series_mean (map UMI summer_day) else 0;
     umi_night := if (0 <? length summer_night)%nat
                  then series_mean (map UMI summer_night) else 0;
     udi_day := if (0 <? length summer_day)%nat
                then - series_mean (map UMI summer_day) else 0;
     udi_night := if (0 <? length summer_night)%nat
                  then - series_mean (map UMI summer_night) else 0;
     max_suhi := if (0 <? length df)%nat then series_max (map SUHI df) else 0;
     min_suhi := if (0 <? length df)%nat then series_min (map SUHI df) else 0;
     avg_suhi := if (0 <? length df)%nat then series_mean (map SUHI df) else 0
  |}.

(** The value shown for a column: its mean, or 0 for a column without
    rows. *)
Definition mean_or_zero (xs : list Q) : Q :=
  match xs with
  | [] => 0
  | _ :: _ => series_mean xs
  end.

(** ** Grouping the variables (data_loader.py, lines 140-156) *)

(** [needle in hay] for strings. *)
Fixpoint contains (needle hay : string) : bool :=
  String.prefix needle hay ||
  match hay with
  | EmptyString => false
  | String _ rest => contains needle rest
  end.

(** [str.lower()] on ASCII names: the letters [A] to [Z] become [a] to
    [z]. *)
Definition lower_ascii (c : Ascii.ascii) : Ascii.ascii :=
  let n := Ascii.nat_of_ascii c in
  if ((65 <=? n) && (n <=? 90))%nat then Ascii.ascii_of_nat (n + 32) else c.

Fixpoint lower (s : string) : string :=
  match s with
  | EmptyString => EmptyString
  | String c rest => String (lower_ascii c) (lower rest)
  end.

(** The grouping of the list of variable names of the dataset (the function
    reads that list from the loaded dataset). *)
Definition get_netcdf_variables (variables : list string)
  : list (string * list string) :=
  [ ("LST_Day", List.filter (String.prefix "LST_Day") variables);
    ("LST_Night", List.filter (String.prefix "LST_Night") variables);
    ("LCZ", List.filter (String.prefix "LCZ") variables);
    ("NDVI", List.filter (String.prefix "NDVI") variables);
    ("Precip", List.filter (String.prefix "Precip") variables);
    ("ET", List.filter (String.prefix "ET") variables);
    ("Humidity",
     List.filter (fun v => contains "Humid" v || contains "humidity" (lower v))
                 variables) ]%string.

(** * Properties *)

(** ** Python primitives *)

Lemma py_min_spec (a b : Q) :
  (a <= b /\ py_min a b = a) \/ (b < a /\ py_min a b = b).
Proof.
  unfold py_min. destruct (Qle_bool a b) eqn:E.
  - left. split; [now apply Qle_bool_iff | reflexivity].
  - right. split; [| reflexivity].
    apply Qnot_le_lt. intros H. apply Qle_bool_iff in H. congruence.
Qed.

Lemma py_max_spec (a b : Q) :
  (b <= a /\ py_max a b = a) \/ (a < b /\ py_max a b = b).
Proof.
  unfold py_max. destruct (Qle_bool b a) eqn:E.
  - left. split; [now apply Qle_bool_iff | reflexivity].
  - right. split; [| reflexivity].
    apply Qnot_le_lt. intros H. apply Qle_bool_iff in H. congruence.
Qed.

(** On a non-negative number, truncation toward zero is the floor. *)
Lemma py_int_floor (x : Q) : 0 <= x -> py_int x = Qfloor x.
Proof.
  destruct x as [n d]. unfold py_int, Qfloor, Qle. simpl. intros H.
  apply Z.quot_div_nonneg; lia.
Qed.

Lemma clamped_range (v hi : Q) : 0 <= hi -> 0 <= clamped v hi <= hi.
Proof.
  intros Hhi. unfold clamped.
  destruct (py_min_spec v hi) as [[H1 ->] | [H1 ->]];
    destruct (py_max_spec 0 v) as [[H2 E2] | [H2 E2]];
    destruct (py_max_spec 0 hi) as [[H3 E3] | [H3 E3]];
    rewrite ?E2, ?E3; lra.
Qed.

Lemma clamped_mono (v1 v2 hi : Q) :
  0 <= hi -> v1 <= v2 -> clamped v1 hi <= clamped v2 hi.
Proof.
  intros Hhi Hv. unfold clamped.
  destruct (py_min_spec v1 hi) as [[H1 ->] | [H1 ->]];
    destruct (py_min_spec v2 hi) as [[H2 ->] | [H2 ->]];
    destruct (py_max_spec 0 v1) as [[A1 E1] | [A1 E1]];
    destruct (py_max_spec 0 v2) as [[A2 E2] | [A2 E2]];
    destruct (py_max_spec 0 hi) as [[A3 E3] | [A3 E3]];
    rewrite ?E1, ?E2, ?E3; lra.
Qed.

Lemma clamped_low (v hi : Q) : 0 <= hi -> v <= 0 -> clamped v hi = 0.
Proof.
  intros Hhi Hv. unfold clamped.
  destruct (py_min_spec v hi) as [[H1 ->] | [H1 ->]]; [| lra].
  destruct (py_max_spec 0 v) as [[H2 E2] | [H2 E2]]; [exact E2 | lra].
Qed.

Lemma clamped_high (v hi : Q) : 0 <= hi -> hi <= v -> clamped v hi == hi.
Proof.
  intros Hhi Hv. unfold clamped.
  destruct (py_min_spec v hi) as [[H1 ->] | [H1 ->]].
  - destruct (py_max_spec 0 v) as [[H2 E2] | [H2 E2]]; rewrite E2; lra.
  - destruct (py_max_spec 0 hi) as [[H2 E2] | [H2 E2]]; rewrite E2; lra.
Qed.

Lemma clamp_index_floor (v : Q) (limit : Z) :
  (1 <= limit)%Z ->
  clamp_index v limit = Qfloor (clamped v (inject_Z (limit - 1))).
Proof.
  intros Hl. unfold clamp_index. apply py_int_floor.
  apply clamped_range. change 0 with (inject_Z 0). rewrite <- Zle_Qle. lia.
Qed.

(** Every clamped index is a valid index: it lies in [0 .. limit - 1]. *)
Lemma clamp_index_range (v : Q) (limit : Z) :
  (1 <= limit)%Z -> (0 <= clamp_index v limit <= limit - 1)%Z.
Proof.
  intros Hl. rewrite clamp_index_floor by exact Hl.
  assert (H0 : 0 <= inject_Z (limit - 1)).
  { change 0 with (inject_Z 0). rewrite <- Zle_Qle. lia. }
  destruct (clamped_range v _ H0) as [Hlo Hhi]. split.
  - pose proof (Qfloor_resp_le (inject_Z 0) _ Hlo) as H.
    rewrite Qfloor_Z in H. exact H.
  - pose proof (Qfloor_resp_le _ _ Hhi) as H. rewrite Qfloor_Z in H. exact H.
Qed.

(** Clamping is monotone. *)
Lemma clamp_index_mono (v1 v2 : Q) (limit : Z) :
  (1 <= limit)%Z -> v1 <= v2 ->
  (clamp_index v1 limit <= clamp_index v2 limit)%Z.
Proof.
  intros Hl Hv. rewrite !clamp_index_floor by exact Hl.
  apply Qfloor_resp_le. apply clamped_mono; [| exact Hv].
  change 0 with (inject_Z 0). rewrite <- Zle_Qle. lia.
Qed.

Lemma clamp_index_low (v : Q) (limit : Z) :
  (1 <= limit)%Z -> v <= 0 -> clamp_index v limit = 0%Z.
Proof.
  intros Hl Hv. rewrite clamp_index_floor by exact Hl.
  rewrite clamped_low; [reflexivity | | exact Hv].
  change 0 with (inject_Z 0). rewrite <- Zle_Qle. lia.
Qed.

Lemma clamp_index_high (v : Q) (limit : Z) :
  (1 <= limit)%Z -> inject_Z (limit - 1) <= v ->
  clamp_index v limit = (limit - 1)%Z.
Proof.
  intros Hl Hv. rewrite clamp_index_floor by exact Hl.
  rewrite (Qfloor_comp _ (inject_Z (limit - 1))); [apply Qfloor_Z |].
  apply clamped_high; [| exact Hv].
  change 0 with (inject_Z 0). rewrite <- Zle_Qle. lia.
Qed.

(** ** The coordinate transform *)

(** Puts the grid constants in the form linear arithmetic understands:
    every division of the code is by a constant. *)
Ltac grid_arith :=
  unfold lonlat_to_pixel, pixel_to_lonlat,
    CONUS_LON_MIN, CONUS_LON_MAX, CONUS_LAT_MIN, CONUS_LAT_MAX,
    GRID_WIDTH, GRID_HEIGHT in *;
  cbn [fst snd] in *; unfold Qdiv in *;
  change (/ (-66 - -125)) with (1 # 59) in *;
  change (/ (50 - 24)) with (1 # 26) in *;
  change (/ 111.0) with (10 # 1110) in *;
  change (/ inject_Z 6435) with (1 # 6435) in *;
  change (/ inject_Z 2767) with (1 # 2767) in *;
  change (inject_Z 6435) with 6435 in *;
  change (inject_Z 2767) with 2767 in *.

Lemma pixel_x_mono (lon1 lon2 lat1 lat2 : Q) :
  lon1 <= lon2 ->
  fst (lonlat_to_pixel lon1 lat1) <= fst (lonlat_to_pixel lon2 lat2).
Proof. intros H. grid_arith. lra. Qed.

(** Rows grow southward: the row coordinate decreases with the latitude. *)
Lemma pixel_y_antimono (lon1 lon2 lat1 lat2 : Q) :
  lat1 <= lat2 ->
  snd (lonlat_to_pixel lon2 lat2) <= snd (lonlat_to_pixel lon1 lat1).
Proof. intros H. grid_arith. lra. Qed.

(** ** The pixel window *)

Lemma buffered_window_eq (minx miny maxx maxy buffer_km : Q) :
  buffered_window (minx, miny, maxx, maxy) buffer_km =
  (clamp_index (fst (lonlat_to_pixel (minx - buffer_km / 111.0)
                                     (maxy + buffer_km / 111.0))) GRID_WIDTH,
   clamp_index (fst (lonlat_to_pixel (maxx + buffer_km / 111.0)
                                     (miny - buffer_km / 111.0))) GRID_WIDTH,
   clamp_index (snd (lonlat_to_pixel (minx - buffer_km / 111.0)
                                     (maxy + buffer_km / 111.0))) GRID_HEIGHT,
   clamp_index (snd (lonlat_to_pixel (maxx + buffer_km / 111.0)
                                     (miny - buffer_km / 111.0))) GRID_HEIGHT).
Proof. reflexivity. Qed.

(** All four indices of the window are clamped into the grid. *)
Lemma buffered_window_range (b : Q * Q * Q * Q) (buffer_km : Q)
    (x_min x_max y_min y_max : Z) :
  buffered_window b buffer_km = (x_min, x_max, y_min, y_max) ->
  (0 <= x_min <= GRID_WIDTH - 1)%Z /\ (0 <= x_max <= GRID_WIDTH - 1)%Z /\
  (0 <= y_min <= GRID_HEIGHT - 1)%Z /\ (0 <= y_max <= GRID_HEIGHT - 1)%Z.
Proof.
  destruct b as [[[minx miny] maxx] maxy]. rewrite buffered_window_eq.
  intros H. injection H as <- <- <- <-.
  repeat split; apply clamp_index_range; unfold GRID_WIDTH, GRID_HEIGHT; lia.
Qed.

(** A larger buffer gives a window that contains the smaller one. *)
Lemma buffered_window_mono (b : Q * Q * Q * Q) (b1 b2 : Q)
    (x_min1 x_max1 y_min1 y_max1 x_min2 x_max2 y_min2 y_max2 : Z) :
  b1 <= b2 ->
  buffered_window b b1 = (x_min1, x_max1, y_min1, y_max1) ->
  buffered_window b b2 = (x_min2, x_max2, y_min2, y_max2) ->
  (x_min2 <= x_min1)%Z /\ (x_max1 <= x_max2)%Z /\
  (y_min2 <= y_min1)%Z /\ (y_max1 <= y_max2)%Z.
Proof.
  destruct b as [[[minx miny] maxx] maxy]. rewrite !buffered_window_eq.
  intros Hb H1 H2.
  injection H1 as <- <- <- <-. injection H2 as <- <- <- <-.
  repeat split; apply clamp_index_mono;
    try (unfold GRID_WIDTH, GRID_HEIGHT; lia).
  all: clear -Hb; grid_arith; lra.
Qed.

(** ** Running the extraction *)

(** What a call does, case by case; the caller's objects come back as they
    went in. *)
Lemma call_extract_eq (d : dataset) (variable_name : string) (q : query)
    (buffer_km : Q) :
  call_extract d variable_name q buffer_km =
  (match geometry_of q with
   | None => Raises IndexError
   | Some geom =>
       let '(x_min, x_max, y_min, y_max) :=
         buffered_window (bounds geom) buffer_km in
       if degenerate (x_min, x_max, y_min, y_max) then Returns nulls
       else match data_vars d !! variable_name with
            | Some a => Returns (Some (isel a x_min x_max y_min y_max),
                                 Some (x_min, x_max, y_min, y_max), Some geom)
            | None => Returns nulls
            end
   end, {| ds := d; geometry_arg := q |}).
Proof.
  unfold call_extract, extract_raster_for_geometry, read_geometry,
    has_data_var, read_window, get_objects, raise, mbind, M_bind, mret, M_ret.
  destruct q as [g | g | [| g rows]]; simpl; [| | reflexivity |].
  all: destruct (buffered_window (bounds g) buffer_km) as [[[x0 x1] y0] y1].
  all: unfold degenerate.
  all: destruct ((x1 <=? x0)%Z || (y1 <=? y0)%Z); [reflexivity |].
  all: simpl; destruct (data_vars d !! variable_name) as [a |] eqn:E.
  all: first [ rewrite bool_decide_eq_true_2 by eauto
             | rewrite bool_decide_eq_false_2 by (intros [? ?]; congruence) ].
  all: simpl; rewrite ?E; reflexivity.
Qed.

Lemma extract_result_eq (d : dataset) (variable_name : string) (q : query)
    (buffer_km : Q) :
  extract_result d variable_name q buffer_km =
  match geometry_of q with
  | None => Raises IndexError
  | Some geom =>
      let '(x_min, x_max, y_min, y_max) :=
        buffered_window (bounds geom) buffer_km in
      if degenerate (x_min, x_max, y_min, y_max) then Returns nulls
      else match data_vars d !! variable_name with
           | Some a => Returns (Some (isel a x_min x_max y_min y_max),
                                Some (x_min, x_max, y_min, y_max), Some geom)
           | None => Returns nulls
           end
  end.
Proof. unfold extract_result. rewrite call_extract_eq. reflexivity. Qed.

Lemma degenerate_true (x_min x_max y_min y_max : Z) :
  degenerate (x_min, x_max, y_min, y_max) = true <->
  (x_max <= x_min)%Z \/ (y_max <= y_min)%Z.
Proof. unfold degenerate. rewrite orb_true_iff, !Z.leb_le. reflexivity. Qed.

Lemma degenerate_false (x_min x_max y_min y_max : Z) :
  degenerate (x_min, x_max, y_min, y_max) = false <->
  (x_min < x_max)%Z /\ (y_min < y_max)%Z.
Proof. unfold degenerate. rewrite orb_false_iff, !Z.leb_gt. reflexivity. Qed.

(** A result that carries a window comes from the success branch. *)
Lemma extract_window_inv (d : dataset) (variable_name : string) (q : query)
    (buffer_km : Q) (data : option array) (x_min x_max y_min y_max : Z)
    (g : option geometry) :
  extract_result d variable_name q buffer_km =
    Returns (data, Some (x_min, x_max, y_min, y_max), g) ->
  exists geom a,
    geometry_of q = Some geom /\
    buffered_window (bounds geom) buffer_km = (x_min, x_max, y_min, y_max) /\
    (x_min < x_max)%Z /\ (y_min < y_max)%Z /\
    data_vars d !! variable_name = Some a /\
    data = Some (isel a x_min x_max y_min y_max) /\ g = Some geom.
Proof.
  rewrite extract_result_eq.
  destruct (geometry_of q) as [geom |]; [| discriminate].
  destruct (buffered_window (bounds geom) buffer_km)
    as [[[x0 x1] y0] y1] eqn:Hw.
  destruct (degenerate (x0, x1, y0, y1)) eqn:Hd; [discriminate |].
  destruct (data_vars d !! variable_name) as [a |]; [| discriminate].
  intros H. injection H as <- <- <- <- <- <-.
  apply degenerate_false in Hd. exists geom, a. tauto.
Qed.

(** ** Slices *)

Lemma py_slice_length {A} (start stop : Z) (l : list A) :
  (0 <= start <= stop)%Z -> (stop <= Z.of_nat (length l))%Z ->
  Z.of_nat (length (py_slice start stop l)) = (stop - start)%Z.
Proof.
  intros H1 H2. unfold py_slice, slice_bound.
  destruct (Z.ltb_spec start 0); [lia |].
  destruct (Z.ltb_spec stop 0); [lia |].
  rewrite length_take, length_drop. lia.
Qed.

Lemma py_slice_Forall {A} (P : A -> Prop) (start stop : Z) (l : list A) :
  Forall P l -> Forall P (py_slice start stop l).
Proof. intros H. unfold py_slice. apply Forall_take, Forall_drop, H. Qed.

(** Slicing an [h] by [w] array by index ranges inside it. *)
Lemma isel_shape (a : array) (h w x_min x_max y_min y_max : Z) :
  has_shape a h w ->
  (0 <= x_min <= x_max)%Z -> (x_max <= w)%Z ->
  (0 <= y_min <= y_max)%Z -> (y_max <= h)%Z ->
  has_shape (isel a x_min x_max y_min y_max) (y_max - y_min) (x_max - x_min).
Proof.
  intros [Hh Hw] Hx1 Hx2 Hy1 Hy2. unfold isel, has_shape. split.
  - rewrite length_map. apply py_slice_length; lia.
  - apply Forall_map. apply (py_slice_Forall _ y_min y_max) in Hw.
    eapply Forall_impl; [exact Hw |].
    intros row Hrow. cbv beta in Hrow |- *. apply py_slice_length; lia.
Qed.

(** ** Projection of a geometry into pixel space *)

(** On pairs, the loop of lines 87-90 builds the list it would build by
    mapping. *)
Lemma project_loop_pairs (l : list vertex) (x_offset y_offset : Q)
    (acc : list (Q * Q)) :
  project_loop (map (fun v => XY (fst v) (snd v)) l) x_offset y_offset acc =
  Returns (acc ++
           map (fun v => (fst (lonlat_to_pixel (fst v) (snd v)) - x_offset,
                          snd (lonlat_to_pixel (fst v) (snd v)) - y_offset))
               l).
Proof.
  revert acc. induction l as [| [lon lat] l IH]; intros acc.
  - cbn [map project_loop]. rewrite app_nil_r. reflexivity.
  - cbn [map project_loop fst snd]. unfold lonlat_to_pixel at 1.
    cbv beta iota zeta. rewrite IH, <- app_assoc. reflexivity.
Qed.

(** Whenever the projection returns, it returns the vertices of the
    coordinate sequence, mapped and shifted, in order. *)
Lemma projection_returns (g : geometry) (x_offset y_offset : Q)
    (pts : list (Q * Q)) :
  geometry_to_pixel_coords g x_offset y_offset = Returns pts ->
  pts = map (fun v => (fst (lonlat_to_pixel (fst v) (snd v)) - x_offset,
                       snd (lonlat_to_pixel (fst v) (snd v)) - y_offset))
            (coordinate_sequence g).
Proof.
  unfold geometry_to_pixel_coords, read_coords, coordinate_sequence.
  destruct (access g) as [ring | cs | | ring | cs |].
  - rewrite project_loop_pairs. intros H. injection H as <-. reflexivity.
  - rewrite project_loop_pairs. intros H. injection H as <-. reflexivity.
  - intros H. injection H as <-. reflexivity.
  - destruct ring as [| v ring]; [| discriminate].
    intros H. injection H as <-. reflexivity.
  - destruct cs as [| v cs]; [| discriminate].
    intros H. injection H as <-. reflexivity.
  - discriminate.
Qed.

(** ** Facts about the sample inputs *)

Lemma conus_array_shape : has_shape conus_array GRID_HEIGHT GRID_WIDTH.
Proof.
  unfold conus_array, has_shape. split.
  - rewrite length_replicate. reflexivity.
  - apply Forall_replicate. rewrite length_replicate. reflexivity.
Qed.

Lemma conus_dataset_lookup :
  data_vars conus_dataset !! "LCZ_2020"%string = Some conus_array.
Proof. unfold conus_dataset, data_vars. apply lookup_singleton_eq. Qed.

Lemma scenario_window :
  buffered_window (bounds scenario_box) 5 = (1358, 1477, 1697, 1760)%Z.
Proof. vm_compute. reflexivity. Qed.

(** * Claims *)

(** C1 (window validity).  For every dataset, variable name, buffer
    [buffer_km >= 0] and geometry whose bounding box intersects the grid
    extent: when the extraction returns a pixel window
    [(x_min, x_max, y_min, y_max)], then [0 <= x_min < x_max <= GRID_WIDTH]
    and [0 <= y_min < y_max <= GRID_HEIGHT]. *)
Theorem window_validity (d : dataset) (variable_name : string) (q : query)
    (geom : geometry) (buffer_km : Q) (data : option array)
    (x_min x_max y_min y_max : Z) (g : option geometry) :
  geometry_of q = Some geom ->
  bbox_intersects_grid (bounds geom) ->
  0 <= buffer_km ->
  extract_result d variable_name q buffer_km =
    Returns (data, Some (x_min, x_max, y_min, y_max), g) ->
  (0 <= x_min < x_max)%Z /\ (x_max <= GRID_WIDTH)%Z /\
  (0 <= y_min < y_max)%Z /\ (y_max <= GRID_HEIGHT)%Z.
Proof.
  intros _ _ _ H.
  destruct (extract_window_inv _ _ _ _ _ _ _ _ _ _ H)
    as (geom' & a & _ & Hw & Hx & Hy & _).
  apply buffered_window_range in Hw. lia.
Qed.

Lemma window_validity_witness :
  (0 <= 1358 < 1477)%Z /\ (1477 <= GRID_WIDTH)%Z /\
  (0 <= 1697 < 1760)%Z /\ (1760 <= GRID_HEIGHT)%Z.
Proof.
  apply (window_validity small_dataset "LCZ_2020" (Shape scenario_box)
           scenario_box 5 (Some []) 1358 1477 1697 1760 (Some scenario_box)).
  - reflexivity.
  - vm_compute. repeat split; discriminate.
  - vm_compute. discriminate.
  - vm_compute. reflexivity.
Defined.

(** C2 (all or nothing).  For every dataset, variable name, buffer and
    geometry, with [(x_min, x_max, y_min, y_max)] the clamped window: the
    extraction returns [(None, None, None)] exactly when the variable is
    absent from the dataset or the window is degenerate
    ([x_max <= x_min] or [y_max <= y_min]); in every other case it returns
    three non-null components (the sliced array, that window and the
    geometry); so no result is partially filled. *)
Theorem null_result_iff (d : dataset) (variable_name : string) (q : query)
    (geom : geometry) (buffer_km : Q) (x_min x_max y_min y_max : Z) :
  geometry_of q = Some geom ->
  buffered_window (bounds geom) buffer_km = (x_min, x_max, y_min, y_max) ->
  (extract_result d variable_name q buffer_km = Returns (None, None, None) <->
   data_vars d !! variable_name = None \/
   (x_max <= x_min)%Z \/ (y_max <= y_min)%Z) /\
  (extract_result d variable_name q buffer_km = Returns (None, None, None) \/
   exists data,
     extract_result d variable_name q buffer_km =
       Returns (Some data, Some (x_min, x_max, y_min, y_max), Some geom)).
Proof.
  intros Hq Hw. rewrite extract_result_eq, Hq, Hw.
  destruct (degenerate (x_min, x_max, y_min, y_max)) eqn:Hd.
  - apply degenerate_true in Hd. split; [| left; reflexivity].
    split; [tauto | reflexivity].
  - apply degenerate_false in Hd.
    destruct (data_vars d !! variable_name) as [a |].
    + split; [| right; eauto].
      split; [discriminate |]. intros [H | H]; [discriminate | lia].
    + split; [| left; reflexivity]. split; [tauto | reflexivity].
Qed.

Lemma null_result_iff_witness :
  (extract_result small_dataset "NDVI_mean_2015" (Shape scenario_box) 5 =
     Returns (None, None, None) <->
   data_vars small_dataset !! "NDVI_mean_2015"%string = None \/
   (1477 <= 1358)%Z \/ (1760 <= 1697)%Z) /\
  (extract_result small_dataset "NDVI_mean_2015" (Shape scenario_box) 5 =
     Returns (None, None, None) \/
   exists data,
     extract_result small_dataset "NDVI_mean_2015" (Shape scenario_box) 5 =
       Returns (Some data, Some (1358, 1477, 1697, 1760)%Z,
                Some scenario_box)).
Proof.
  apply (null_result_iff small_dataset "NDVI_mean_2015" (Shape scenario_box)
           scenario_box 5 1358 1477 1697 1760).
  - reflexivity.
  - vm_compute. reflexivity.
Defined.

(** C3 (shape consistency).  For every dataset whose named variable has
    exactly the shape of the grid ([GRID_HEIGHT] rows of [GRID_WIDTH]
    columns): when the extraction returns an array with the window
    [(x_min, x_max, y_min, y_max)], the array has [y_max - y_min] rows of
    [x_max - x_min] columns. *)
Theorem shape_consistency (d : dataset) (variable_name : string) (q : query)
    (buffer_km : Q) (a data : array) (x_min x_max y_min y_max : Z)
    (g : option geometry) :
  data_vars d !! variable_name = Some a ->
  has_shape a GRID_HEIGHT GRID_WIDTH ->
  extract_result d variable_name q buffer_km =
    Returns (Some data, Some (x_min, x_max, y_min, y_max), g) ->
  has_shape data (y_max - y_min) (x_max - x_min).
Proof.
  intros Ha Hshape H.
  destruct (extract_window_inv _ _ _ _ _ _ _ _ _ _ H)
    as (geom & a' & _ & Hw & Hx & Hy & Ha' & Hdata & _).
  assert (a' = a) as -> by congruence.
  injection Hdata as ->.
  apply buffered_window_range in Hw.
  eapply isel_shape; [exact Hshape | lia ..].
Qed.

Lemma shape_consistency_witness :
  has_shape (isel conus_array 1358 1477 1697 1760) (1760 - 1697) (1477 - 1358).
Proof.
  apply (shape_consistency conus_dataset "LCZ_2020" (Shape scenario_box) 5
           conus_array (isel conus_array 1358 1477 1697 1760)
           1358 1477 1697 1760 (Some scenario_box)).
  - exact conus_dataset_lookup.
  - exact conus_array_shape.
  - rewrite extract_result_eq.
    change (geometry_of (Shape scenario_box)) with (Some scenario_box).
    cbv beta iota. rewrite scenario_window, conus_dataset_lookup.
    reflexivity.
Defined.

(** C4 (round trip).  For every [(lon, lat)] within the grid extent,
    mapping to pixel coordinates and back gives [(lon, lat)] again, exactly,
    in rational arithmetic. *)
Theorem round_trip (lon lat : Q) :
  CONUS_LON_MIN <= lon <= CONUS_LON_MAX ->
  CONUS_LAT_MIN <= lat <= CONUS_LAT_MAX ->
  let '(px, py) := lonlat_to_pixel lon lat in
  let '(lon', lat') := pixel_to_lonlat px py in
  lon' == lon /\ lat' == lat.
Proof.
  intros _ _. unfold lonlat_to_pixel, pixel_to_lonlat. cbv beta iota zeta.
  grid_arith. split; lra.
Qed.

Lemma round_trip_witness :
  let '(px, py) := lonlat_to_pixel (-112.5) 33.5 in
  let '(lon', lat') := pixel_to_lonlat px py in
  lon' == -112.5 /\ lat' == 33.5.
Proof.
  apply (round_trip (-112.5) 33.5).
  - vm_compute. split; discriminate.
  - vm_compute. split; discriminate.
Defined.

(** C5 (monotonic buffer).  For a fixed dataset, variable name and geometry
    and buffers [0 <= b1 <= b2]: when both extractions return a window, the
    window for [b2] contains the window for [b1]. *)
Theorem buffer_monotone (d : dataset) (variable_name : string) (q : query)
    (b1 b2 : Q) (data1 data2 : option array) (g1 g2 : option geometry)
    (x_min1 x_max1 y_min1 y_max1 x_min2 x_max2 y_min2 y_max2 : Z) :
  0 <= b1 -> b1 <= b2 ->
  extract_result d variable_name q b1 =
    Returns (data1, Some (x_min1, x_max1, y_min1, y_max1), g1) ->
  extract_result d variable_name q b2 =
    Returns (data2, Some (x_min2, x_max2, y_min2, y_max2), g2) ->
  (x_min2 <= x_min1)%Z /\ (x_max2 >= x_max1)%Z /\
  (y_min2 <= y_min1)%Z /\ (y_max2 >= y_max1)%Z.
Proof.
  intros _ Hb H1 H2.
  destruct (extract_window_inv _ _ _ _ _ _ _ _ _ _ H1)
    as (geom1 & a1 & Hq1 & Hw1 & _).
  destruct (extract_window_inv _ _ _ _ _ _ _ _ _ _ H2)
    as (geom2 & a2 & Hq2 & Hw2 & _).
  assert (geom2 = geom1) as -> by congruence.
  pose proof (buffered_window_mono _ _ _ _ _ _ _ _ _ _ _ Hb Hw1 Hw2). lia.
Qed.

Lemma buffer_monotone_witness :
  (1353 <= 1358)%Z /\ (1482 >= 1477)%Z /\
  (1693 <= 1697)%Z /\ (1765 >= 1760)%Z.
Proof.
  apply (buffer_monotone small_dataset "LCZ_2020" (Shape scenario_box) 5 10
           (Some []) (Some []) (Some scenario_box) (Some scenario_box)
           1358 1477 1697 1760 1353 1482 1693 1765).
  - vm_compute. discriminate.
  - vm_compute. discriminate.
  - vm_compute. reflexivity.
  - vm_compute. reflexivity.
Defined.

(** C6 (degenerate rejection).  For every dataset and variable name, a
    geometry whose bounding box lies entirely outside the grid extent,
    extracted with [buffer_km = 0], gives [(None, None, None)]. *)
Theorem outside_grid_rejected (d : dataset) (variable_name : string)
    (q : query) (geom : geometry) :
  geometry_of q = Some geom ->
  bbox_outside_grid (bounds geom) ->
  extract_result d variable_name q 0 = Returns (None, None, None).
Proof.
  intros Hq Hout. rewrite extract_result_eq, Hq.
  destruct (bounds geom) as [[[minx miny] maxx] maxy].
  rewrite buffered_window_eq.
  match goal with
  | |- (if ?c then _ else _) = _ => assert (Hd : c = true)
  end; [| rewrite Hd; reflexivity].
  apply degenerate_true.
  assert (HW : (1 <= GRID_WIDTH)%Z) by (unfold GRID_WIDTH; lia).
  assert (HH : (1 <= GRID_HEIGHT)%Z) by (unfold GRID_HEIGHT; lia).
  pose proof (clamp_index_range
    (fst (lonlat_to_pixel (minx - 0 / 111.0) (maxy + 0 / 111.0))) _ HW).
  pose proof (clamp_index_range
    (fst (lonlat_to_pixel (maxx + 0 / 111.0) (miny - 0 / 111.0))) _ HW).
  pose proof (clamp_index_range
    (snd (lonlat_to_pixel (minx - 0 / 111.0) (maxy + 0 / 111.0))) _ HH).
  pose proof (clamp_index_range
    (snd (lonlat_to_pixel (maxx + 0 / 111.0) (miny - 0 / 111.0))) _ HH).
  destruct Hout as [Hwest | [Heast | [Hsouth | Hnorth]]].
  - left.
    rewrite (clamp_index_low
      (fst (lonlat_to_pixel (maxx + 0 / 111.0) (miny - 0 / 111.0)))); try lia.
    clear - Hwest. grid_arith. lra.
  - left.
    rewrite (clamp_index_high
      (fst (lonlat_to_pixel (minx - 0 / 111.0) (maxy + 0 / 111.0)))); try lia.
    clear - Heast. grid_arith. change (inject_Z (6435 - 1)) with 6434. lra.
  - right.
    rewrite (clamp_index_high
      (snd (lonlat_to_pixel (minx - 0 / 111.0) (maxy + 0 / 111.0)))); try lia.
    clear - Hsouth. grid_arith. change (inject_Z (2767 - 1)) with 2766. lra.
  - right.
    rewrite (clamp_index_low
      (snd (lonlat_to_pixel (maxx + 0 / 111.0) (miny - 0 / 111.0)))); try lia.
    clear - Hnorth. grid_arith. lra.
Qed.

Lemma outside_grid_rejected_witness :
  extract_result small_dataset "LCZ_2020" (Shape southern_box) 0 =
    Returns (None, None, None).
Proof.
  apply (outside_grid_rejected small_dataset "LCZ_2020" (Shape southern_box)
           southern_box).
  - reflexivity.
  - vm_compute. right. left. reflexivity.
Defined.

(** C7 (scenario), as the claim states it, fails: the window returned for
    the scenario box with [buffer_km = 5] is not 65 pixels wide, not even
    within 50 pixels of that. *)
Lemma scenario_window_not_65_wide :
  ~ exists data x_min x_max y_min y_max g,
      extract_result small_dataset "LCZ_2020" (Shape scenario_box) 5 =
        Returns (data, Some (x_min, x_max, y_min, y_max), g) /\
      (x_min < x_max)%Z /\ (y_min < y_max)%Z /\
      (Z.abs (x_max - x_min - 65) <= 50)%Z.
Proof.
  intros (data & x_min & x_max & y_min & y_max & g & H & _ & _ & Hwide).
  destruct (extract_window_inv _ _ _ _ _ _ _ _ _ _ H)
    as (geom & a & Hq & Hw & _).
  injection Hq as <-. rewrite scenario_window in Hw.
  injection Hw as <- <- <- <-. lia.
Qed.

(** C7 (scenario), amended.  On the grid of longitudes -125 .. -66 and
    latitudes 24 .. 50, 6435 by 2767 pixels, the box of longitudes
    -112.5 .. -111.5 and latitudes 33.5 .. 34.0 with [buffer_km = 5] and a
    variable present in the dataset gives a non-null result whose window is
    [(1358, 1477, 1697, 1760)]: 119 pixels wide and 63 pixels high, with
    [x_min < x_max] and [y_min < y_max]. *)
Theorem scenario_extraction (d : dataset) (variable_name : string) (a : array) :
  data_vars d !! variable_name = Some a ->
  exists x_min x_max y_min y_max,
    extract_result d variable_name (Shape scenario_box) 5 =
      Returns (Some (isel a x_min x_max y_min y_max),
               Some (x_min, x_max, y_min, y_max), Some scenario_box) /\
    (x_min, x_max, y_min, y_max) = (1358, 1477, 1697, 1760)%Z /\
    (x_min < x_max)%Z /\ (y_min < y_max)%Z /\
    (x_max - x_min = 119)%Z /\ (y_max - y_min = 63)%Z.
Proof.
  intros Ha. exists 1358%Z, 1477%Z, 1697%Z, 1760%Z.
  split; [| repeat split; lia].
  rewrite extract_result_eq.
  change (geometry_of (Shape scenario_box)) with (Some scenario_box).
  cbv beta iota. rewrite scenario_window, Ha. reflexivity.
Qed.

Lemma scenario_extraction_witness :
  exists x_min x_max y_min y_max,
    extract_result small_dataset "LCZ_2020" (Shape scenario_box) 5 =
      Returns (Some (isel [[Value 6; Value 6]; [NaN; Value 14]]
                          x_min x_max y_min y_max),
               Some (x_min, x_max, y_min, y_max), Some scenario_box) /\
    (x_min, x_max, y_min, y_max) = (1358, 1477, 1697, 1760)%Z /\
    (x_min < x_max)%Z /\ (y_min < y_max)%Z /\
    (x_max - x_min = 119)%Z /\ (y_max - y_min = 63)%Z.
Proof.
  apply (scenario_extraction small_dataset "LCZ_2020"
           [[Value 6; Value 6]; [NaN; Value 14]]).
  vm_compute. reflexivity.
Defined.

(** C8 (projection), at the inputs where the code parts from the claim.
    For a geometry with two-dimensional vertices the function returns the
    vertices of the exterior ring (polygons) or of the coordinate sequence
    (lines, points), each mapped through [lonlat_to_pixel] and shifted by
    the offsets, in order; for an object with neither attribute it returns
    the empty list.  But it does signal errors: for a multi-part geometry
    (which has no exterior, and whose [coords] cannot be read) it raises
    [NotImplementedError] instead of returning the empty list, and for a
    geometry whose vertices have a third coordinate it raises
    [ValueError]. *)
Theorem projection_raises (b : Q * Q * Q * Q) (x_offset y_offset : Q)
    (l : list vertex) (v : Q * Q * Q) (more : list (Q * Q * Q)) :
  geometry_to_pixel_coords {| bounds := b; access := MultiPart |}
    x_offset y_offset = Raises NotImplementedError /\
  geometry_to_pixel_coords {| bounds := b; access := Exterior3D (v :: more) |}
    x_offset y_offset = Raises ValueError /\
  geometry_to_pixel_coords {| bounds := b; access := Coords3D (v :: more) |}
    x_offset y_offset = Raises ValueError /\
  geometry_to_pixel_coords {| bounds := b; access := NoCoords |}
    x_offset y_offset = Returns [] /\
  geometry_to_pixel_coords {| bounds := b; access := Exterior l |}
    x_offset y_offset =
    Returns (map (fun v => (fst (lonlat_to_pixel (fst v) (snd v)) - x_offset,
                            snd (lonlat_to_pixel (fst v) (snd v)) - y_offset))
                 l) /\
  geometry_to_pixel_coords {| bounds := b; access := Coords l |}
    x_offset y_offset =
    Returns (map (fun v => (fst (lonlat_to_pixel (fst v) (snd v)) - x_offset,
                            snd (lonlat_to_pixel (fst v) (snd v)) - y_offset))
                 l).
Proof.
  unfold geometry_to_pixel_coords, read_coords. cbn [access].
  rewrite !project_loop_pairs. destruct v as [[x y] z].
  repeat split; reflexivity.
Qed.

(** C9 (inputs untouched).  Every call leaves the dataset and the query
    geometry as they were, whether it returns or raises; and when the result
    carries a geometry, that geometry is the one the argument stands for -
    the argument itself when it is a geometry object - with its original,
    un-buffered bounds. *)
Theorem inputs_unchanged (d : dataset) (variable_name : string) (q : query)
    (buffer_km : Q) :
  snd (call_extract d variable_name q buffer_km) =
    {| ds := d; geometry_arg := q |} /\
  (forall data w g,
     extract_result d variable_name q buffer_km = Returns (data, w, Some g) ->
     geometry_of q = Some g /\
     forall geom, q = Shape geom -> g = geom).
Proof.
  split.
  - rewrite call_extract_eq. reflexivity.
  - intros data w g. rewrite extract_result_eq.
    destruct (geometry_of q) as [geom |] eqn:Hq; [| discriminate].
    destruct (buffered_window (bounds geom) buffer_km) as [[[x0 x1] y0] y1].
    destruct (degenerate (x0, x1, y0, y1)); [discriminate |].
    destruct (data_vars d !! variable_name); [| discriminate].
    intros H. injection H as _ _ <-. split; [reflexivity |].
    intros geom' ->. simpl in Hq. congruence.
Qed.

Lemma inputs_unchanged_witness :
  snd (call_extract small_dataset "LCZ_2020" (Shape scenario_box) 5) =
    {| ds := small_dataset; geometry_arg := Shape scenario_box |} /\
  geometry_of (Shape scenario_box) = Some scenario_box.
Proof.
  pose proof (inputs_unchanged small_dataset "LCZ_2020" (Shape scenario_box) 5)
    as [Hframe Hgeom].
  split; [exact Hframe |].
  apply (Hgeom (Some []) (Some (1358, 1477, 1697, 1760)%Z) scenario_box).
  vm_compute. reflexivity.
Defined.

(** C10 (last column and last row).  Whenever the extraction returns a
    window [(x_min, x_max, y_min, y_max)], all four indices lie in
    [0 .. GRID_WIDTH - 1] and [0 .. GRID_HEIGHT - 1]; so
    [x_max <= GRID_WIDTH - 1] and [y_max <= GRID_HEIGHT - 1], and no column
    [x_min <= col < x_max] is the easternmost column [GRID_WIDTH - 1] and no
    row [y_min <= row < y_max] is the southernmost row [GRID_HEIGHT - 1]. *)
Theorem last_column_and_row_excluded (d : dataset) (variable_name : string)
    (q : query) (buffer_km : Q) (data : option array)
    (x_min x_max y_min y_max : Z) (g : option geometry) :
  extract_result d variable_name q buffer_km =
    Returns (data, Some (x_min, x_max, y_min, y_max), g) ->
  (0 <= x_min)%Z /\ (0 <= y_min)%Z /\
  (x_max <= GRID_WIDTH - 1)%Z /\ (y_max <= GRID_HEIGHT - 1)%Z /\
  (forall col, (x_min <= col < x_max)%Z -> (col < GRID_WIDTH - 1)%Z) /\
  (forall row, (y_min <= row < y_max)%Z -> (row < GRID_HEIGHT - 1)%Z).
Proof.
  intros H.
  destruct (extract_window_inv _ _ _ _ _ _ _ _ _ _ H)
    as (geom & a & _ & Hw & _).
  apply buffered_window_range in Hw.
  repeat split; try lia; intros; lia.
Qed.

(** The instance of a geometry that covers the entire grid: the window stops
    at column 6434 and row 2766, both excluded. *)
Lemma last_column_and_row_excluded_witness :
  extract_result small_dataset "LCZ_2020" (Shape conus_box) 0 =
    Returns (Some [[Value 6; Value 6]; [NaN; Value 14]],
             Some (0, 6434, 0, 2766)%Z, Some conus_box) /\
  (0 <= 0)%Z /\ (0 <= 0)%Z /\
  (6434 <= GRID_WIDTH - 1)%Z /\ (2766 <= GRID_HEIGHT - 1)%Z /\
  (forall col, (0 <= col < 6434)%Z -> (col < GRID_WIDTH - 1)%Z) /\
  (forall row, (0 <= row < 2766)%Z -> (row < GRID_HEIGHT - 1)%Z).
Proof.
  assert (H : extract_result small_dataset "LCZ_2020" (Shape conus_box) 0 =
    Returns (Some [[Value 6; Value 6]; [NaN; Value 14]],
             Some (0, 6434, 0, 2766)%Z, Some conus_box))
    by (vm_compute; reflexivity).
  split; [exact H |].
  exact (last_column_and_row_excluded _ _ _ _ _ _ _ _ _ _ H).
Defined.

(** * Further properties *)

(** ** The coordinate transform, further *)

(** X1.  Mapping pixel coordinates to geographic coordinates and back gives
    the pixel coordinates again ([pixel_to_lonlat] is a right inverse of
    [lonlat_to_pixel] as well as a left inverse). *)
Theorem pixel_round_trip (px py : Q) :
  let '(lon, lat) := pixel_to_lonlat px py in
  let '(px', py') := lonlat_to_pixel lon lat in
  px' == px /\ py' == py.
Proof.
  unfold lonlat_to_pixel, pixel_to_lonlat. cbv beta iota zeta.
  grid_arith. split; lra.
Qed.

(** X2.  A point lies in the grid extent exactly when its pixel coordinates
    lie in the rectangle [0 .. GRID_WIDTH] by [0 .. GRID_HEIGHT]. *)
Theorem extent_pixel_range (lon lat : Q) :
  (CONUS_LON_MIN <= lon <= CONUS_LON_MAX /\
   CONUS_LAT_MIN <= lat <= CONUS_LAT_MAX) <->
  (0 <= fst (lonlat_to_pixel lon lat) <= inject_Z GRID_WIDTH /\
   0 <= snd (lonlat_to_pixel lon lat) <= inject_Z GRID_HEIGHT).
Proof. grid_arith. split; intros H; repeat split; lra. Qed.

(** X3.  The grid is north-up and west-left: the column coordinate never
    falls when the longitude grows, and the row coordinate never grows when
    the latitude grows. *)
Theorem pixel_order (lon1 lat1 lon2 lat2 : Q) :
  (lon1 <= lon2 ->
   fst (lonlat_to_pixel lon1 lat1) <= fst (lonlat_to_pixel lon2 lat2)) /\
  (lat1 <= lat2 ->
   snd (lonlat_to_pixel lon2 lat2) <= snd (lonlat_to_pixel lon1 lat1)).
Proof. grid_arith. split; intros H; lra. Qed.

(** ** The pixel window, further *)

Lemma limit_pred_nonneg (limit : Z) : (1 <= limit)%Z -> 0 <= inject_Z (limit - 1).
Proof. intros H. change 0 with (inject_Z 0). rewrite <- Zle_Qle. lia. Qed.

Lemma inject_Z_pred (limit : Z) : inject_Z (limit - 1) == inject_Z limit - 1.
Proof. unfold Z.sub. rewrite inject_Z_plus. reflexivity. Qed.

(** A clamped index is not to the right of any non-negative bound on the
    value that was clamped. *)
Lemma clamp_index_le_of (v w : Q) (limit : Z) :
  (1 <= limit)%Z -> 0 <= w -> v <= w -> inject_Z (clamp_index v limit) <= w.
Proof.
  intros Hl Hw Hv. rewrite clamp_index_floor by exact Hl.
  pose proof (limit_pred_nonneg _ Hl) as Hhi.
  pose proof (Qfloor_le (clamped v (inject_Z (limit - 1)))) as Hf.
  assert (clamped v (inject_Z (limit - 1)) <= w); [| lra].
  unfold clamped.
  destruct (py_min_spec v (inject_Z (limit - 1))) as [[H1 ->] | [H1 ->]].
  - destruct (py_max_spec 0 v) as [[H2 ->] | [H2 ->]]; lra.
  - destruct (py_max_spec 0 (inject_Z (limit - 1))) as [[H2 ->] | [H2 ->]];
      lra.
Qed.

(** The pixel after a clamped index is not to the left of any value below
    the clamped one, as long as that value is inside the grid. *)
Lemma clamp_index_succ_ge (v w : Q) (limit : Z) :
  (1 <= limit)%Z -> w <= v -> w <= inject_Z limit ->
  w <= inject_Z (clamp_index v limit) + 1.
Proof.
  intros Hl Hv Hw.
  pose proof (limit_pred_nonneg _ Hl) as Hhi.
  pose proof (inject_Z_pred limit) as Hp.
  destruct (Qlt_le_dec v (inject_Z (limit - 1))) as [Hlt | Hge].
  - rewrite clamp_index_floor by exact Hl.
    pose proof (Qlt_floor (clamped v (inject_Z (limit - 1)))) as Hf.
    rewrite inject_Z_plus in Hf. change (inject_Z 1) with 1 in Hf.
    assert (v <= clamped v (inject_Z (limit - 1))); [| lra].
    unfold clamped.
    destruct (py_min_spec v (inject_Z (limit - 1))) as [[H1 ->] | [H1 ->]].
    + destruct (py_max_spec 0 v) as [[H2 ->] | [H2 ->]]; lra.
    + lra.
  - rewrite clamp_index_high by assumption. lra.
Qed.

(** Nested boxes and ordered buffers give nested windows. *)
Lemma buffered_window_nested (inner outer : Q * Q * Q * Q) (b1 b2 : Q)
    (x_min1 x_max1 y_min1 y_max1 x_min2 x_max2 y_min2 y_max2 : Z) :
  bbox_nested inner outer -> b1 <= b2 ->
  buffered_window inner b1 = (x_min1, x_max1, y_min1, y_max1) ->
  buffered_window outer b2 = (x_min2, x_max2, y_min2, y_max2) ->
  (x_min2 <= x_min1)%Z /\ (x_max1 <= x_max2)%Z /\
  (y_min2 <= y_min1)%Z /\ (y_max1 <= y_max2)%Z.
Proof.
  destruct inner as [[[minx1 miny1] maxx1] maxy1].
  destruct outer as [[[minx2 miny2] maxx2] maxy2].
  rewrite !buffered_window_eq. intros (Hx0 & Hy0 & Hx1 & Hy1) Hb H1 H2.
  injection H1 as <- <- <- <-. injection H2 as <- <- <- <-.
  repeat split; apply clamp_index_mono;
    try (unfold GRID_WIDTH, GRID_HEIGHT; lia).
  all: clear - Hx0 Hy0 Hx1 Hy1 Hb; grid_arith; lra.
Qed.

(** X4.  For two geometries with nested bounding boxes and buffers
    [b1 <= b2]: when both extractions return a window, the window of the
    outer geometry contains the window of the inner one (so the raster cut
    for a city lies inside the raster cut for its buffer zone). *)
Theorem window_nested (d : dataset) (variable_name : string) (q1 q2 : query)
    (geom1 geom2 : geometry) (b1 b2 : Q) (data1 data2 : option array)
    (g1 g2 : option geometry)
    (x_min1 x_max1 y_min1 y_max1 x_min2 x_max2 y_min2 y_max2 : Z) :
  geometry_of q1 = Some geom1 -> geometry_of q2 = Some geom2 ->
  bbox_nested (bounds geom1) (bounds geom2) -> b1 <= b2 ->
  extract_result d variable_name q1 b1 =
    Returns (data1, Some (x_min1, x_max1, y_min1, y_max1), g1) ->
  extract_result d variable_name q2 b2 =
    Returns (data2, Some (x_min2, x_max2, y_min2, y_max2), g2) ->
  (x_min2 <= x_min1)%Z /\ (x_max1 <= x_max2)%Z /\
  (y_min2 <= y_min1)%Z /\ (y_max1 <= y_max2)%Z.
Proof.
  intros Hq1 Hq2 Hn Hb H1 H2.
  destruct (extract_window_inv _ _ _ _ _ _ _ _ _ _ H1)
    as (geom1' & a1 & Hq1' & Hw1 & _).
  destruct (extract_window_inv _ _ _ _ _ _ _ _ _ _ H2)
    as (geom2' & a2 & Hq2' & Hw2 & _).
  assert (geom1' = geom1) as -> by congruence.
  assert (geom2' = geom2) as -> by congruence.
  exact (buffered_window_nested _ _ _ _ _ _ _ _ _ _ _ _ Hn Hb Hw1 Hw2).
Qed.

Lemma window_nested_witness :
  (1358 <= 1391)%Z /\ (1444 <= 1477)%Z /\
  (1697 <= 1708)%Z /\ (1750 <= 1760)%Z.
Proof.
  apply (window_nested small_dataset "LCZ_2020" (Shape inner_box)
           (Shape scenario_box) inner_box scenario_box 5 5
           (Some []) (Some []) (Some inner_box) (Some scenario_box)
           1391 1444 1708 1750 1358 1477 1697 1760).
  - reflexivity.
  - reflexivity.
  - vm_compute. repeat split; discriminate.
  - vm_compute. discriminate.
  - vm_compute. reflexivity.
  - vm_compute. reflexivity.
Defined.

Lemma buffered_window_misses (b : Q * Q * Q * Q) (buffer_km : Q) :
  bbox_misses_grid (buffered_bbox b buffer_km) ->
  degenerate (buffered_window b buffer_km) = true.
Proof.
  destruct b as [[[minx miny] maxx] maxy]. rewrite buffered_window_eq.
  unfold buffered_bbox, bbox_misses_grid. intros Hout.
  apply degenerate_true.
  assert (HW : (1 <= GRID_WIDTH)%Z) by (unfold GRID_WIDTH; lia).
  assert (HH : (1 <= GRID_HEIGHT)%Z) by (unfold GRID_HEIGHT; lia).
  pose proof (clamp_index_range
    (fst (lonlat_to_pixel (minx - buffer_km / 111.0)
                          (maxy + buffer_km / 111.0))) _ HW) as R1.
  pose proof (clamp_index_range
    (fst (lonlat_to_pixel (maxx + buffer_km / 111.0)
                          (miny - buffer_km / 111.0))) _ HW) as R2.
  pose proof (clamp_index_range
    (snd (lonlat_to_pixel (minx - buffer_km / 111.0)
                          (maxy + buffer_km / 111.0))) _ HH) as R3.
  pose proof (clamp_index_range
    (snd (lonlat_to_pixel (maxx + buffer_km / 111.0)
                          (miny - buffer_km / 111.0))) _ HH) as R4.
  destruct Hout as [Hwest | [Heast | [Hsouth | Hnorth]]].
  - left.
    rewrite (clamp_index_low
      (fst (lonlat_to_pixel (maxx + buffer_km / 111.0)
                            (miny - buffer_km / 111.0)))); try lia.
    clear - Hwest. grid_arith. lra.
  - left.
    rewrite (clamp_index_high
      (fst (lonlat_to_pixel (minx - buffer_km / 111.0)
                            (maxy + buffer_km / 111.0)))); try lia.
    clear - Heast. grid_arith. change (inject_Z (6435 - 1)) with 6434. lra.
  - right.
    rewrite (clamp_index_high
      (snd (lonlat_to_pixel (minx - buffer_km / 111.0)
                            (maxy + buffer_km / 111.0)))); try lia.
    clear - Hsouth. grid_arith. change (inject_Z (2767 - 1)) with 2766. lra.
  - right.
    rewrite (clamp_index_low
      (snd (lonlat_to_pixel (maxx + buffer_km / 111.0)
                            (miny - buffer_km / 111.0)))); try lia.
    clear - Hnorth. grid_arith. lra.
Qed.

(** X5.  For every buffer, positive or not: when the bounding box grown by
    the buffer still lies outside the grid extent, or only touches its
    border, the extraction returns [(None, None, None)]. *)
Theorem buffered_miss_rejected (d : dataset) (variable_name : string)
    (q : query) (geom : geometry) (buffer_km : Q) :
  geometry_of q = Some geom ->
  bbox_misses_grid (buffered_bbox (bounds geom) buffer_km) ->
  extract_result d variable_name q buffer_km = Returns (None, None, None).
Proof.
  intros Hq Hout. rewrite extract_result_eq, Hq.
  pose proof (buffered_window_misses _ _ Hout) as Hd.
  destruct (buffered_window (bounds geom) buffer_km) as [[[x0 x1] y0] y1].
  rewrite Hd. reflexivity.
Qed.

Lemma buffered_miss_rejected_witness :
  extract_result small_dataset "LCZ_2020" (Shape atlantic_box) 5 =
    Returns (None, None, None).
Proof.
  apply (buffered_miss_rejected small_dataset "LCZ_2020" (Shape atlantic_box)
           atlantic_box 5).
  - reflexivity.
  - vm_compute. right. left. discriminate.
Defined.

(** X6.  A geometry whose bounding box has no width or no height (a point,
    a meridian or parallel segment), extracted with a buffer of zero or
    less, gives [(None, None, None)], wherever it lies. *)
Theorem flat_bbox_rejected (d : dataset) (variable_name : string) (q : query)
    (geom : geometry) (buffer_km minx miny maxx maxy : Q) :
  geometry_of q = Some geom ->
  bounds geom = (minx, miny, maxx, maxy) ->
  buffer_km <= 0 ->
  maxx <= minx \/ maxy <= miny ->
  extract_result d variable_name q buffer_km = Returns (None, None, None).
Proof.
  intros Hq Hb Hbuf Hflat. rewrite extract_result_eq, Hq, Hb.
  rewrite buffered_window_eq.
  match goal with
  | |- (if ?c then _ else _) = _ => assert (Hd : c = true)
  end; [| rewrite Hd; reflexivity].
  apply degenerate_true.
  destruct Hflat as [Hx | Hy]; [left | right]; apply clamp_index_mono;
    try (unfold GRID_WIDTH, GRID_HEIGHT; lia).
  - clear - Hbuf Hx. grid_arith. lra.
  - clear - Hbuf Hy. grid_arith. lra.
Qed.

Lemma flat_bbox_rejected_witness :
  extract_result small_dataset "LCZ_2020" (Shape phoenix_point) 0 =
    Returns (None, None, None).
Proof.
  apply (flat_bbox_rejected small_dataset "LCZ_2020" (Shape phoenix_point)
           phoenix_point 0 (-112.07) 33.45 (-112.07) 33.45).
  - reflexivity.
  - reflexivity.
  - vm_compute. discriminate.
  - left. vm_compute. discriminate.
Defined.

(** Two values a pixel apart keep distinct indices through the clamping, if
    the smaller one is left of the last column and the larger one right of
    the first. *)
Lemma clamp_index_lt (v1 v2 : Q) (limit : Z) :
  (2 <= limit)%Z ->
  v1 + 1 <= v2 -> 1 <= v2 -> v1 <= inject_Z (limit - 2) ->
  (clamp_index v1 limit < clamp_index v2 limit)%Z.
Proof.
  intros Hl H12 H2 H1.
  assert (Hl1 : (1 <= limit)%Z) by lia.
  pose proof (limit_pred_nonneg _ Hl1) as Hhi.
  assert (Hpp : inject_Z (limit - 2) == inject_Z (limit - 1) - 1).
  { replace (limit - 2)%Z with (limit - 1 + -1)%Z by lia.
    rewrite inject_Z_plus. reflexivity. }
  assert (H01 : 1 <= inject_Z (limit - 1)).
  { change 1 with (inject_Z 1). rewrite <- Zle_Qle. lia. }
  rewrite !clamp_index_floor by exact Hl1.
  assert (Hc : clamped v1 (inject_Z (limit - 1)) + 1 <=
               clamped v2 (inject_Z (limit - 1))).
  { unfold clamped.
    destruct (py_min_spec v1 (inject_Z (limit - 1))) as [[A1 ->] | [A1 ->]];
      destruct (py_min_spec v2 (inject_Z (limit - 1))) as [[A2 ->] | [A2 ->]];
      destruct (py_max_spec 0 v1) as [[B1 E1] | [B1 E1]];
      destruct (py_max_spec 0 v2) as [[B2 E2] | [B2 E2]];
      destruct (py_max_spec 0 (inject_Z (limit - 1))) as [[B3 E3] | [B3 E3]];
      rewrite ?E1, ?E2, ?E3; lra. }
  pose proof (Qfloor_resp_le _ _ Hc) as Hf.
  assert (Hs : Qfloor (clamped v1 (inject_Z (limit - 1)) + 1) =
               (Qfloor (clamped v1 (inject_Z (limit - 1))) + 1)%Z).
  { set (c := clamped v1 (inject_Z (limit - 1))).
    pose proof (Qfloor_le c) as L1. pose proof (Qlt_floor c) as L2.
    pose proof (Qfloor_le (c + 1)) as L3. pose proof (Qlt_floor (c + 1)) as L4.
    rewrite inject_Z_plus in L2, L4. change (inject_Z 1) with 1 in L2, L4.
    assert (G1 : inject_Z (Qfloor c) < inject_Z (Qfloor (c + 1))) by lra.
    assert (G2 : inject_Z (Qfloor (c + 1)) < inject_Z (Qfloor c) + 1 + 1)
      by lra.
    rewrite <- Zlt_Qlt in G1.
    assert (G3 : inject_Z (Qfloor (c + 1)) < inject_Z (Qfloor c + 2)).
    { rewrite inject_Z_plus. change (inject_Z 2) with 2. lra. }
    rewrite <- Zlt_Qlt in G3. lia. }
  lia.
Qed.

(** X7.  A sufficient condition for success.  Let the buffered bounding box
    map to the pixel coordinates [px0 .. px1] by [py0 .. py1].  When the
    variable is in the dataset, the box spans at least two pixels each way
    ([px0 + 2 <= px1], [py0 + 2 <= py1]), reaches past the second column
    and row ([2 <= px1], [2 <= py1]) and starts before the last two
    ([px0 <= GRID_WIDTH - 3], [py0 <= GRID_HEIGHT - 3]), the extraction
    returns an array, a window and the geometry.  (One pixel would do in
    exact arithmetic; the second one is slack for the rounding of the
    code's floating-point arithmetic.) *)
Theorem two_pixel_span_succeeds (d : dataset) (variable_name : string)
    (q : query) (geom : geometry) (buffer_km : Q) (a : array)
    (lon_min lat_min lon_max lat_max : Q) :
  geometry_of q = Some geom ->
  data_vars d !! variable_name = Some a ->
  buffered_bbox (bounds geom) buffer_km = (lon_min, lat_min, lon_max, lat_max) ->
  fst (lonlat_to_pixel lon_min lat_max) + 2 <=
    fst (lonlat_to_pixel lon_max lat_min) ->
  2 <= fst (lonlat_to_pixel lon_max lat_min) ->
  fst (lonlat_to_pixel lon_min lat_max) <= inject_Z (GRID_WIDTH - 3) ->
  snd (lonlat_to_pixel lon_min lat_max) + 2 <=
    snd (lonlat_to_pixel lon_max lat_min) ->
  2 <= snd (lonlat_to_pixel lon_max lat_min) ->
  snd (lonlat_to_pixel lon_min lat_max) <= inject_Z (GRID_HEIGHT - 3) ->
  exists x_min x_max y_min y_max,
    extract_result d variable_name q buffer_km =
      Returns (Some (isel a x_min x_max y_min y_max),
               Some (x_min, x_max, y_min, y_max), Some geom).
Proof.
  intros Hq Ha Hbb Hx1 Hx2 Hx3 Hy1 Hy2 Hy3.
  rewrite extract_result_eq, Hq.
  destruct (bounds geom) as [[[minx miny] maxx] maxy].
  unfold buffered_bbox in Hbb. injection Hbb as <- <- <- <-.
  rewrite buffered_window_eq.
  match goal with
  | |- context [degenerate (?a0, ?a1, ?a2, ?a3)] =>
      assert (Hd : degenerate (a0, a1, a2, a3) = false)
  end.
  { change (inject_Z (GRID_WIDTH - 3)) with 6432 in Hx3.
    change (inject_Z (GRID_HEIGHT - 3)) with 2764 in Hy3.
    apply degenerate_false. split; apply clamp_index_lt;
      try (unfold GRID_WIDTH, GRID_HEIGHT; lia);
      try (change (inject_Z (GRID_WIDTH - 2)) with 6433);
      try (change (inject_Z (GRID_HEIGHT - 2)) with 2765); lra. }
  rewrite Hd, Ha. eauto.
Qed.

Lemma two_pixel_span_succeeds_witness :
  exists x_min x_max y_min y_max,
    extract_result small_dataset "LCZ_2020" (Shape scenario_box) 5 =
      Returns (Some (isel [[Value 6; Value 6]; [NaN; Value 14]]
                          x_min x_max y_min y_max),
               Some (x_min, x_max, y_min, y_max), Some scenario_box).
Proof.
  apply (two_pixel_span_succeeds small_dataset "LCZ_2020" (Shape scenario_box)
           scenario_box 5 [[Value 6; Value 6]; [NaN; Value 14]]
           (-112.5 - 5 / 111.0) (33.5 - 5 / 111.0)
           (-111.5 + 5 / 111.0) (34.0 + 5 / 111.0)).
  - reflexivity.
  - vm_compute. reflexivity.
  - reflexivity.
  - vm_compute. discriminate.
  - vm_compute. discriminate.
  - vm_compute. discriminate.
  - vm_compute. discriminate.
  - vm_compute. discriminate.
  - vm_compute. discriminate.
Defined.

(** ** The outline over the extracted raster *)

Lemma box_vertices_within_bounds (minx miny maxx maxy : Q) :
  minx <= maxx -> miny <= maxy ->
  vertices_within_bounds (box minx miny maxx maxy).
Proof.
  intros Hx Hy. unfold vertices_within_bounds, box, coordinate_sequence.
  cbn [bounds access].
  destruct (py_min_spec minx maxx) as [[A1 ->] | [A1 ->]];
    destruct (py_max_spec minx maxx) as [[A2 ->] | [A2 ->]];
    destruct (py_min_spec miny maxy) as [[A3 ->] | [A3 ->]];
    destruct (py_max_spec miny maxy) as [[A4 ->] | [A4 ->]];
    repeat constructor; cbn [fst snd]; lra.
Qed.

(** A point of the buffered bounding box that lies in the grid extent has
    its pixel coordinates between the window's first column and row and the
    column and row after its last ones. *)
Lemma window_covers_point (b : Q * Q * Q * Q) (buffer_km lon lat : Q)
    (x_min x_max y_min y_max : Z) :
  buffered_window b buffer_km = (x_min, x_max, y_min, y_max) ->
  (let '(lon_min, lat_min, lon_max, lat_max) := buffered_bbox b buffer_km in
   lon_min <= lon <= lon_max /\ lat_min <= lat <= lat_max) ->
  CONUS_LON_MIN <= lon <= CONUS_LON_MAX ->
  CONUS_LAT_MIN <= lat <= CONUS_LAT_MAX ->
  inject_Z x_min <= fst (lonlat_to_pixel lon lat) <= inject_Z x_max + 1 /\
  inject_Z y_min <= snd (lonlat_to_pixel lon lat) <= inject_Z y_max + 1.
Proof.
  destruct b as [[[minx miny] maxx] maxy]. rewrite buffered_window_eq.
  unfold buffered_bbox. intros Hw [[Hx0 Hx1] [Hy0 Hy1]] Hlon Hlat.
  assert (HW : (1 <= GRID_WIDTH)%Z) by (unfold GRID_WIDTH; lia).
  assert (HH : (1 <= GRID_HEIGHT)%Z) by (unfold GRID_HEIGHT; lia).
  assert (E : forall u v w z : Z, (u, v, w, z) = (x_min, x_max, y_min, y_max) ->
              u = x_min /\ v = x_max /\ w = y_min /\ z = y_max)
    by (intros u v w z H; injection H; auto).
  apply E in Hw. destruct Hw as (<- & <- & <- & <-).
  repeat split.
  - apply clamp_index_le_of; [exact HW | |].
    + clear - Hlon. grid_arith. lra.
    + clear - Hx0. grid_arith. lra.
  - apply clamp_index_succ_ge; [exact HW | |].
    + clear - Hx1. grid_arith. lra.
    + clear - Hlon. grid_arith. lra.
  - apply clamp_index_le_of; [exact HH | |].
    + clear - Hlat. grid_arith. lra.
    + clear - Hy1. grid_arith. lra.
  - apply clamp_index_succ_ge; [exact HH | |].
    + clear - Hy0. grid_arith. lra.
    + clear - Hlat. grid_arith. lra.
Qed.

(** X8.  The outline fits the raster.  For a geometry inside the grid extent
    whose vertices lie in its bounding box, and a buffer [buffer_km >= 0]:
    when the extraction returns the window [(x_min, x_max, y_min, y_max)]
    and the projection with the offsets [(x_min, y_min)] - as the figure
    functions call it - returns, every projected vertex has its column in
    [0 .. x_max - x_min + 1] and its row in [0 .. y_max - y_min + 1]: inside
    the extracted array, or on the pixel just after its last column or
    row. *)
Theorem outline_within_raster (d : dataset) (variable_name : string)
    (q : query) (geom : geometry) (buffer_km : Q) (data : option array)
    (x_min x_max y_min y_max : Z) (g : option geometry)
    (pts : list (Q * Q)) :
  geometry_of q = Some geom ->
  vertices_within_bounds geom ->
  bbox_within_grid (bounds geom) ->
  0 <= buffer_km ->
  extract_result d variable_name q buffer_km =
    Returns (data, Some (x_min, x_max, y_min, y_max), g) ->
  geometry_to_pixel_coords geom (inject_Z x_min) (inject_Z y_min) =
    Returns pts ->
  Forall (fun p : Q * Q =>
            0 <= fst p <= inject_Z (x_max - x_min) + 1 /\
            0 <= snd p <= inject_Z (y_max - y_min) + 1)
         pts.
Proof.
  intros Hq Hv Hg Hb H Hpts.
  destruct (extract_window_inv _ _ _ _ _ _ _ _ _ _ H)
    as (geom' & a & Hq' & Hw & _).
  assert (geom' = geom) as -> by congruence.
  apply projection_returns in Hpts. subst pts. apply Forall_map.
  unfold vertices_within_bounds, bbox_within_grid in *.
  destruct (bounds geom) as [[[minx miny] maxx] maxy] eqn:Hbounds.
  eapply Forall_impl; [exact Hv |].
  intros [lon lat]. cbn [fst snd]. intros [[Hx0 Hx1] [Hy0 Hy1]].
  destruct Hg as (G1 & G2 & G3 & G4).
  assert (Hd : 0 <= buffer_km / 111.0) by (clear - Hb; grid_arith; lra).
  destruct (window_covers_point (minx, miny, maxx, maxy) buffer_km lon lat
              x_min x_max y_min y_max Hw) as [[C1 C2] [C3 C4]].
  - unfold buffered_bbox. lra.
  - lra.
  - lra.
  - assert (Ex : inject_Z (x_max - x_min) == inject_Z x_max - inject_Z x_min).
    { unfold Z.sub. rewrite inject_Z_plus, inject_Z_opp. reflexivity. }
    assert (Ey : inject_Z (y_max - y_min) == inject_Z y_max - inject_Z y_min).
    { unfold Z.sub. rewrite inject_Z_plus, inject_Z_opp. reflexivity. }
    lra.
Qed.

Lemma outline_within_raster_witness :
  Forall (fun p : Q * Q =>
            0 <= fst p <= inject_Z (1477 - 1358) + 1 /\
            0 <= snd p <= inject_Z (1760 - 1697) + 1)
         (map (fun v : vertex =>
                 (fst (lonlat_to_pixel (fst v) (snd v)) - inject_Z 1358,
                  snd (lonlat_to_pixel (fst v) (snd v)) - inject_Z 1697))
              (coordinate_sequence scenario_box)).
Proof.
  apply (outline_within_raster small_dataset "LCZ_2020" (Shape scenario_box)
           scenario_box 5 (Some []) 1358 1477 1697 1760 (Some scenario_box)).
  - reflexivity.
  - apply box_vertices_within_bounds; vm_compute; discriminate.
  - vm_compute. repeat split; discriminate.
  - vm_compute. discriminate.
  - vm_compute. reflexivity.
  - vm_compute. reflexivity.
Defined.

(** X9.  The projected outline determines the vertices, exactly, in rational
    arithmetic: when the projection returns, shifting each projected point
    back by the offsets and mapping it through [pixel_to_lonlat] gives the
    vertices of the geometry, in order.  (The code computes in binary
    floating point, where the vertices come back up to rounding only.) *)
Theorem projection_back (g : geometry) (x_offset y_offset : Q)
    (pts : list (Q * Q)) :
  geometry_to_pixel_coords g x_offset y_offset = Returns pts ->
  Forall2 (fun (v : vertex) (p : Q * Q) =>
             fst (pixel_to_lonlat (fst p + x_offset) (snd p + y_offset))
               == fst v /\
             snd (pixel_to_lonlat (fst p + x_offset) (snd p + y_offset))
               == snd v)
          (coordinate_sequence g) pts.
Proof.
  intros Hpts. apply projection_returns in Hpts. subst pts.
  generalize (coordinate_sequence g). clear g.
  intros l. induction l as [| [lon lat] l IH]; simpl.
  - constructor.
  - constructor; [| exact IH]. clear. grid_arith. split; lra.
Qed.

Lemma projection_back_witness :
  Forall2 (fun (v : vertex) (p : Q * Q) =>
             fst (pixel_to_lonlat (fst p + 1358) (snd p + 1697)) == fst v /\
             snd (pixel_to_lonlat (fst p + 1358) (snd p + 1697)) == snd v)
          (coordinate_sequence scenario_box)
          (map (fun v : vertex =>
                  (fst (lonlat_to_pixel (fst v) (snd v)) - 1358,
                   snd (lonlat_to_pixel (fst v) (snd v)) - 1697))
               (coordinate_sequence scenario_box)).
Proof.
  apply (projection_back scenario_box 1358 1697).
  vm_compute. reflexivity.
Defined.

(** ** Callers of the extraction *)

(** X10.  [extract_raster_for_city] gives what [extract_raster_for_geometry]
    gives when it is handed the table itself: the extraction for the first
    row, and [IndexError] for a table without rows. *)
Theorem extract_raster_for_city_frame (d : dataset) (variable_name : string)
    (city_gdf : list geometry) (buffer_km : Q) :
  extract_raster_for_city d variable_name city_gdf buffer_km =
    extract_result d variable_name (Frame city_gdf) buffer_km /\
  extract_raster_for_city d variable_name [] buffer_km = Raises IndexError.
Proof.
  split; [| reflexivity].
  unfold extract_raster_for_city.
  destruct city_gdf as [| geom rows]; rewrite !extract_result_eq; reflexivity.
Qed.

Lemma has_shape_size (a : array) (h w : Z) :
  has_shape a h w -> array_size a = (h * w)%Z.
Proof.
  unfold has_shape, array_size. intros [Hh Hw]. subst h.
  induction Hw as [| row a Hrow Hrest IH]; [reflexivity |].
  cbn [concat length]. rewrite length_app. lia.
Qed.

(** X11.  For a dataset whose named variable has the shape of the grid, an
    array returned by the extraction is never empty: it has at least one
    row, every row has at least one cell, and its size is the area of the
    window.  (So the guard [data.size > 0] of the study-area page holds
    whenever [data is not None].) *)
Theorem extracted_data_nonempty (d : dataset) (variable_name : string)
    (q : query) (buffer_km : Q) (a data : array)
    (x_min x_max y_min y_max : Z) (g : option geometry) :
  data_vars d !! variable_name = Some a ->
  has_shape a GRID_HEIGHT GRID_WIDTH ->
  extract_result d variable_name q buffer_km =
    Returns (Some data, Some (x_min, x_max, y_min, y_max), g) ->
  data <> [] /\ Forall (fun row => row <> []) data /\
  array_size data = ((y_max - y_min) * (x_max - x_min))%Z /\
  (0 < array_size data)%Z.
Proof.
  intros Ha Hshape H.
  destruct (extract_window_inv _ _ _ _ _ _ _ _ _ _ H)
    as (geom & a' & _ & Hw & Hx & Hy & Ha' & Hdata & _).
  assert (a' = a) as -> by congruence.
  injection Hdata as ->.
  apply buffered_window_range in Hw.
  assert (Hs : has_shape (isel a x_min x_max y_min y_max)
                 (y_max - y_min) (x_max - x_min))
    by (eapply isel_shape; [exact Hshape | lia ..]).
  pose proof (has_shape_size _ _ _ Hs) as Hsize.
  destruct Hs as [Hrows Hcols].
  repeat split.
  - intros E. rewrite E in Hrows. simpl in Hrows. lia.
  - eapply Forall_impl; [exact Hcols |].
    intros row Hrow E. cbv beta in Hrow. rewrite E in Hrow. simpl in Hrow. lia.
  - exact Hsize.
  - rewrite Hsize. nia.
Qed.

Lemma extracted_data_nonempty_witness :
  isel conus_array 1358 1477 1697 1760 <> [] /\
  Forall (fun row => row <> []) (isel conus_array 1358 1477 1697 1760) /\
  array_size (isel conus_array 1358 1477 1697 1760) =
    ((1760 - 1697) * (1477 - 1358))%Z /\
  (0 < array_size (isel conus_array 1358 1477 1697 1760))%Z.
Proof.
  apply (extracted_data_nonempty conus_dataset "LCZ_2020" (Shape scenario_box)
           5 conus_array (isel conus_array 1358 1477 1697 1760)
           1358 1477 1697 1760 (Some scenario_box)).
  - exact conus_dataset_lookup.
  - exact conus_array_shape.
  - rewrite extract_result_eq.
    change (geometry_of (Shape scenario_box)) with (Some scenario_box).
    cbv beta iota. rewrite scenario_window, conus_dataset_lookup.
    reflexivity.
Defined.

(** ** Drawn geometries *)

Lemma first_two_positions (ring : list (vertex * list Q)) :
  first_two (map position_of ring) = Returns (map fst ring).
Proof.
  induction ring as [| [[lon lat] more] ring IH]; [reflexivity |].
  cbn [map position_of fst snd first_two]. fold position_of.
  rewrite IH. reflexivity.
Qed.

Lemma drawn_polygon_feature {R} (Polygon : list vertex -> outcome R)
    (ring : list (vertex * list Q)) (holes : list (list position)) :
  drawn_polygon Polygon (polygon_feature (map position_of ring :: holes)) =
    constructed (Polygon (map fst ring)).
Proof.
  unfold drawn_polygon, polygon_feature. cbn [geo_type coordinates].
  rewrite String.eqb_refl, first_two_positions. reflexivity.
Qed.

Lemma drawn_polygon_none {R} (Polygon : list vertex -> outcome R)
    (dr : drawing) :
  drawn_polygon Polygon dr = Returns None <-> not_a_polygon dr.
Proof.
  unfold drawn_polygon, not_a_polygon.
  destruct dr as [| [geom_dict |]]; [tauto | | tauto].
  destruct (String.eqb_spec (geo_type geom_dict) "Polygon") as [E | E].
  - split; [| tauto].
    destruct (coordinates geom_dict) as [| coords rings]; [discriminate |].
    destruct (first_two coords) as [vs | e]; [| discriminate].
    destruct (Polygon vs); discriminate.
  - tauto.
Qed.

Lemma first_drawn_polygon_skip {R} (Polygon : list vertex -> outcome R)
    (skipped rest : list drawing) :
  Forall not_a_polygon skipped ->
  first_drawn_polygon Polygon (skipped ++ rest) =
    first_drawn_polygon Polygon rest.
Proof.
  induction 1 as [| dr skipped Hdr _ IH]; [reflexivity |].
  cbn [app first_drawn_polygon].
  apply (drawn_polygon_none Polygon) in Hdr. rewrite Hdr. exact IH.
Qed.

Lemma first_drawn_polygon_none {R} (Polygon : list vertex -> outcome R)
    (drawings : list drawing) :
  first_drawn_polygon Polygon drawings = Returns None <->
  Forall not_a_polygon drawings.
Proof.
  induction drawings as [| dr rest IH]; cbn [first_drawn_polygon].
  - split; [constructor | reflexivity].
  - rewrite Forall_cons, <- IH, <- (drawn_polygon_none Polygon).
    destruct (drawn_polygon Polygon dr) as [[r |] | e].
    + split; [discriminate | intros [H _]; discriminate].
    + tauto.
    + split; [discriminate | intros [H _]; discriminate].
Qed.

(** On a well-formed drawing only the constructor can raise. *)
Lemma drawn_polygon_well_formed {R} (Polygon : list vertex -> outcome R)
    (dr : drawing) :
  well_formed_drawing dr ->
  (exists r, drawn_polygon Polygon dr = Returns r) \/
  (exists vs e, Polygon vs = Raises e /\ drawn_polygon Polygon dr = Raises e).
Proof.
  unfold well_formed_drawing, drawn_polygon.
  destruct dr as [| [geom_dict |]]; [eauto | | eauto].
  destruct (String.eqb_spec (geo_type geom_dict) "Polygon") as [E | E];
    [| eauto].
  intros H. destruct (H E) as (ring & holes & ->).
  rewrite first_two_positions.
  destruct (Polygon (map fst ring)) as [polygon | e] eqn:EP; cbn [constructed].
  - left. eauto.
  - right. exists (map fst ring), e. split; [exact EP | reflexivity].
Qed.

(** X12.  The last active drawing comes first.  When it is a polygon whose
    exterior ring has positions of two numbers or more, the result is what
    the polygon constructor gives for the longitude and latitude of those
    positions, in order - the polygon it builds, or the exception it raises
    (for a ring of one or two positions, [ValueError]) - whatever
    [all_drawings] holds, and without the holes of the drawn polygon and the
    numbers that follow the latitude. *)
Theorem active_polygon_first {R} (Polygon : list vertex -> outcome R)
    (ring : list (vertex * list Q)) (holes : list (list position))
    (others : option (list drawing)) :
  parse_drawn_geometry Polygon
    (MapData {| last_active_drawing :=
                  Some (polygon_feature (map position_of ring :: holes));
                all_drawings := others |}) =
    constructed (Polygon (map fst ring)).
Proof.
  unfold parse_drawn_geometry. cbn [last_active_drawing].
  rewrite drawn_polygon_feature.
  destruct (Polygon (map fst ring)); reflexivity.
Qed.

(** X13.  Without a polygon as last active drawing, the result is what the
    polygon constructor gives for the first polygon of [all_drawings] (the
    polygon it builds, or the exception it raises); drawings before it that
    are empty, have no geometry or are not polygons are passed over. *)
Theorem first_listed_polygon {R} (Polygon : list vertex -> outcome R)
    (m : map_dict) (skipped rest : list drawing)
    (ring : list (vertex * list Q)) (holes : list (list position)) :
  (forall dr, last_active_drawing m = Some dr -> not_a_polygon dr) ->
  all_drawings m =
    Some (skipped ++ polygon_feature (map position_of ring :: holes) :: rest) ->
  Forall not_a_polygon skipped ->
  parse_drawn_geometry Polygon (MapData m) =
    constructed (Polygon (map fst ring)).
Proof.
  intros Hactive Hall Hskip. unfold parse_drawn_geometry. rewrite Hall.
  assert (Ha : match last_active_drawing m with
               | Some dr => drawn_polygon Polygon dr
               | None => Returns None
               end = Returns None).
  { destruct (last_active_drawing m) as [dr |]; [| reflexivity].
    apply drawn_polygon_none. apply Hactive. reflexivity. }
  rewrite Ha, first_drawn_polygon_skip by exact Hskip.
  cbn [first_drawn_polygon]. rewrite drawn_polygon_feature.
  destruct (Polygon (map fst ring)); reflexivity.
Qed.

(** X14.  The result is [None] exactly when neither the last active drawing
    nor any drawing of [all_drawings] is a polygon. *)
Theorem no_polygon_iff_none {R} (Polygon : list vertex -> outcome R)
    (m : map_dict) :
  parse_drawn_geometry Polygon (MapData m) = Returns None <->
  (forall dr, last_active_drawing m = Some dr -> not_a_polygon dr) /\
  (forall drawings, all_drawings m = Some drawings ->
     Forall not_a_polygon drawings).
Proof.
  unfold parse_drawn_geometry.
  destruct (last_active_drawing m) as [dr |].
  - pose proof (drawn_polygon_none Polygon dr) as Hdr.
    destruct (drawn_polygon Polygon dr) as [[r |] | e].
    + split; [discriminate |].
      intros [H _]. specialize (H dr eq_refl). apply Hdr in H. discriminate.
    + destruct (all_drawings m) as [drawings |].
      * rewrite first_drawn_polygon_none. split.
        -- intros H. split.
           ++ intros dr' E. injection E as <-. apply Hdr. reflexivity.
           ++ intros ds' E. injection E as <-. exact H.
        -- intros [_ H]. apply H. reflexivity.
      * split; [| reflexivity]. intros _. split.
        -- intros dr' E. injection E as <-. apply Hdr. reflexivity.
        -- discriminate.
    + split; [discriminate |].
      intros [H _]. specialize (H dr eq_refl). apply Hdr in H. discriminate.
  - destruct (all_drawings m) as [drawings |].
    + rewrite first_drawn_polygon_none. split.
      * intros H. split; [discriminate |].
        intros ds' E. injection E as <-. exact H.
      * intros [_ H]. apply H. reflexivity.
    + split; [| reflexivity]. intros _. split; discriminate.
Qed.

Lemma first_listed_polygon_witness :
  parse_drawn_geometry ring_polygon
    (MapData {| last_active_drawing := Some marker_drawing;
                all_drawings :=
                  Some ([NoDrawing; Feature None; marker_drawing] ++
                        polygon_feature (map position_of drawn_ring :: []) ::
                        []) |}) =
    constructed (ring_polygon (map fst drawn_ring)).
Proof.
  apply (first_listed_polygon ring_polygon
           {| last_active_drawing := Some marker_drawing;
              all_drawings :=
                Some ([NoDrawing; Feature None; marker_drawing] ++
                      polygon_feature (map position_of drawn_ring :: []) ::
                      []) |}
           [NoDrawing; Feature None; marker_drawing] [] drawn_ring []).
  - intros dr E. injection E as <-. simpl. discriminate.
  - reflexivity.
  - repeat constructor. simpl. discriminate.
Defined.

Lemma first_drawn_polygon_well_formed {R}
    (Polygon : list vertex -> outcome R) (drawings : list drawing) :
  Forall well_formed_drawing drawings ->
  (exists r, first_drawn_polygon Polygon drawings = Returns r) \/
  (exists vs e, Polygon vs = Raises e /\
                first_drawn_polygon Polygon drawings = Raises e).
Proof.
  induction 1 as [| dr rest Hdr _ IH]; cbn [first_drawn_polygon];
    [left; eauto |].
  destruct (drawn_polygon_well_formed Polygon dr Hdr)
    as [[[r |] ->] | (vs & e & HP & ->)].
  - left. eauto.
  - exact IH.
  - right. eauto.
Qed.

(** X15.  On well-formed input only the polygon constructor can raise: when
    every polygon among the drawings has at least one ring and the positions
    of its first ring have two numbers or more, the function returns (a
    polygon or [None]), or it raises an exception that the constructor
    raised for the ring it was given. *)
Theorem well_formed_only_constructor_raises {R}
    (Polygon : list vertex -> outcome R) (m : map_dict) :
  (forall dr, last_active_drawing m = Some dr -> well_formed_drawing dr) ->
  (forall drawings, all_drawings m = Some drawings ->
     Forall well_formed_drawing drawings) ->
  (exists r, parse_drawn_geometry Polygon (MapData m) = Returns r) \/
  (exists vs e, Polygon vs = Raises e /\
                parse_drawn_geometry Polygon (MapData m) = Raises e).
Proof.
  intros Hactive Hall. unfold parse_drawn_geometry.
  assert (Hlist : (exists r,
            match all_drawings m with
            | Some drawings => first_drawn_polygon Polygon drawings
            | None => Returns None
            end = Returns r) \/
          (exists vs e, Polygon vs = Raises e /\
            match all_drawings m with
            | Some drawings => first_drawn_polygon Polygon drawings
            | None => Returns None
            end = Raises e)).
  { destruct (all_drawings m) as [drawings |]; [| left; eauto].
    apply first_drawn_polygon_well_formed. apply Hall. reflexivity. }
  destruct (last_active_drawing m) as [dr |]; [| exact Hlist].
  destruct (drawn_polygon_well_formed Polygon dr (Hactive dr eq_refl))
    as [[[r |] ->] | (vs & e & HP & ->)].
  - left. eauto.
  - exact Hlist.
  - right. eauto.
Qed.

Lemma well_formed_only_constructor_raises_witness :
  (exists r,
     parse_drawn_geometry ring_polygon
       (MapData {| last_active_drawing :=
                     Some (polygon_feature [map position_of short_ring]);
                   all_drawings :=
                     Some [polygon_feature [map position_of drawn_ring]] |}) =
       Returns r) \/
  (exists vs e,
     ring_polygon vs = Raises e /\
     parse_drawn_geometry ring_polygon
       (MapData {| last_active_drawing :=
                     Some (polygon_feature [map position_of short_ring]);
                   all_drawings :=
                     Some [polygon_feature [map position_of drawn_ring]] |}) =
       Raises e).
Proof.
  apply (well_formed_only_constructor_raises ring_polygon
           {| last_active_drawing :=
                Some (polygon_feature [map position_of short_ring]);
              all_drawings :=
                Some [polygon_feature [map position_of drawn_ring]] |}).
  - intros dr E. injection E as <-. simpl. intros _.
    exists short_ring, []. reflexivity.
  - intros drawings E. injection E as <-.
    repeat constructor. simpl. intros _. exists drawn_ring, []. reflexivity.
Defined.

Lemma first_two_short (before : list (vertex * list Q)) (short : position)
    (after : list position) :
  (length short < 2)%nat ->
  first_two (map position_of before ++ short :: after) = Raises IndexError.
Proof.
  intros Hshort.
  induction before as [| [[lon lat] more] before IH].
  - cbn [map app first_two].
    destruct short as [| x [| y short]]; [reflexivity | reflexivity |].
    simpl in Hshort. lia.
  - cbn [map app position_of fst snd first_two]. fold position_of.
    rewrite IH. reflexivity.
Qed.

(** X16.  A malformed polygon as last active drawing raises [IndexError],
    whatever [all_drawings] holds: a polygon without rings, or a polygon
    whose exterior ring has a position with fewer than two numbers. *)
Theorem malformed_polygon_raises {R} (Polygon : list vertex -> outcome R)
    (before : list (vertex * list Q)) (short : position)
    (after : list position) (holes : list (list position))
    (others : option (list drawing)) :
  (length short < 2)%nat ->
  parse_drawn_geometry Polygon
    (MapData {| last_active_drawing := Some (polygon_feature []);
                all_drawings := others |}) = Raises IndexError /\
  parse_drawn_geometry Polygon
    (MapData {| last_active_drawing :=
                  Some (polygon_feature
                          ((map position_of before ++ short :: after)
                           :: holes));
                all_drawings := others |}) = Raises IndexError.
Proof.
  intros Hshort. split; [reflexivity |].
  unfold parse_drawn_geometry, drawn_polygon, polygon_feature.
  cbn [last_active_drawing geo_type coordinates].
  rewrite String.eqb_refl, first_two_short by exact Hshort. reflexivity.
Qed.

Lemma malformed_polygon_raises_witness :
  parse_drawn_geometry ring_polygon
    (MapData {| last_active_drawing := Some (polygon_feature []);
                all_drawings :=
                  Some [polygon_feature [map position_of drawn_ring]] |}) =
    Raises IndexError /\
  parse_drawn_geometry ring_polygon
    (MapData {| last_active_drawing :=
                  Some (polygon_feature
                          ((map position_of drawn_ring ++ [-112.5] :: [])
                           :: []));
                all_drawings :=
                  Some [polygon_feature [map position_of drawn_ring]] |}) =
    Raises IndexError.
Proof.
  apply (malformed_polygon_raises ring_polygon drawn_ring
           [-112.5] [] []
           (Some [polygon_feature [map position_of drawn_ring]])).
  simpl. lia.
Defined.

(** ** LCZ classes *)

Lemma lcz_class_cases (k : Z) :
  (1 <= k <= 17)%Z ->
  k = 1%Z \/ k = 2%Z \/ k = 3%Z \/ k = 4%Z \/ k = 5%Z \/ k = 6%Z \/
  k = 7%Z \/ k = 8%Z \/ k = 9%Z \/ k = 10%Z \/ k = 11%Z \/ k = 12%Z \/
  k = 13%Z \/ k = 14%Z \/ k = 15%Z \/ k = 16%Z \/ k = 17%Z.
Proof. lia. Qed.

(** X17.  The colour map is aligned with the classes.  For every class
    [1 <= k <= 17]: the colour table has a colour for [k] (the white
    default is never used), that colour is entry [k] of the colour list,
    and [k] lies strictly between boundaries [k] and [k + 1] of the norm;
    the norm has exactly one bin per colour. *)
Theorem lcz_colormap_aligned (k : Z) :
  (1 <= k <= 17)%Z ->
  let '(colors, (bounds, ncolors)) := create_lcz_colormap in
  (exists c, LCZ_CMAP_COLORS !! k = Some c /\
             colors !! Z.to_nat k = Some c) /\
  (exists lo hi, bounds !! Z.to_nat k = Some lo /\
                 bounds !! S (Z.to_nat k) = Some hi /\
                 lo < inject_Z k < hi) /\
  colors !! 0%nat = Some "#ffffff"%string /\
  ncolors = Z.of_nat (length colors) /\
  length bounds = S (length colors).
Proof.
  intros Hk. apply lcz_class_cases in Hk.
  repeat (destruct Hk as [-> | Hk]); try subst k;
    (split; [eexists; split; vm_compute; reflexivity |]);
    (split; [do 2 eexists; split; [vm_compute; reflexivity |];
             split; [vm_compute; reflexivity |];
             split; vm_compute; reflexivity |]);
    repeat split.
Qed.

Lemma lcz_colormap_aligned_witness :
  let '(colors, (bounds, ncolors)) := create_lcz_colormap in
  (exists c, LCZ_CMAP_COLORS !! 17%Z = Some c /\
             colors !! Z.to_nat 17 = Some c) /\
  (exists lo hi, bounds !! Z.to_nat 17 = Some lo /\
                 bounds !! S (Z.to_nat 17) = Some hi /\
                 lo < inject_Z 17 < hi) /\
  colors !! 0%nat = Some "#ffffff"%string /\
  ncolors = Z.of_nat (length colors) /\
  length bounds = S (length colors).
Proof. apply (lcz_colormap_aligned 17). lia. Defined.

(** [int] of a rational is a class number exactly on [1 <= x < 18]. *)
Lemma py_int_class_range (x : Q) :
  (1 <= py_int x <= 17)%Z <-> 1 <= x < 18.
Proof.
  destruct (Qlt_le_dec x 0) as [Hneg | Hpos].
  - assert (py_int x <= 0)%Z.
    { destruct x as [n den]. unfold py_int, Qlt in *. simpl in *.
      apply Z.quot_le_upper_bound; lia. }
    split; [lia | lra].
  - rewrite py_int_floor by exact Hpos.
    pose proof (Qfloor_le x) as L1. pose proof (Qlt_floor x) as L2.
    rewrite inject_Z_plus in L2. change (inject_Z 1) with 1 in L2.
    split.
    + intros [H1 H2]. rewrite Zle_Qle in H1, H2.
      change (inject_Z 1) with 1 in H1. change (inject_Z 17) with 17 in H2.
      lra.
    + intros [H1 H2]. split.
      * assert (G : inject_Z 1 < inject_Z (Qfloor x) + 1)
          by (change (inject_Z 1) with 1; lra).
        assert (G' : inject_Z 1 < inject_Z (Qfloor x + 1))
          by (rewrite inject_Z_plus; exact G).
        rewrite <- Zlt_Qlt in G'. lia.
      * assert (G : inject_Z (Qfloor x) < inject_Z 18)
          by (change (inject_Z 18) with 18; lra).
        rewrite <- Zlt_Qlt in G. lia.
Qed.

(** X18.  For a finite [lcz_class], [get_lcz_name] and [get_lcz_color]
    return a class name and a class colour exactly for
    [1 <= lcz_class < 18] (a fraction is cut off, so 17.9 is class 17 and
    0.9 is no class), and ["Unknown"] and ["#808080"] everywhere else; for
    not-a-number they raise [ValueError] and for an infinity
    [OverflowError]. *)
Theorem lcz_known_iff (x : Q) :
  (exists name colour,
     get_lcz_name (Finite x) = Returns name /\
     get_lcz_color (Finite x) = Returns colour /\
     (name <> "Unknown"%string <-> 1 <= x < 18) /\
     (colour <> "#808080"%string <-> 1 <= x < 18) /\
     (name = "Unknown"%string <-> colour = "#808080"%string)) /\
  get_lcz_name NotANumber = Raises ValueError /\
  get_lcz_color NotANumber = Raises ValueError /\
  get_lcz_name Infinity = Raises OverflowError /\
  get_lcz_color Infinity = Raises OverflowError.
Proof.
  split; [| repeat split; reflexivity].
  unfold get_lcz_name, get_lcz_color, int_of_float.
  do 2 eexists. split; [reflexivity |]. split; [reflexivity |].
  rewrite <- py_int_class_range.
  set (k := py_int x). clearbody k.
  destruct (decide (1 <= k <= 17)%Z) as [Hk | Hk].
  - apply lcz_class_cases in Hk.
    repeat (destruct Hk as [-> | Hk]); try subst k;
      (split; [split; [lia | intros _; vm_compute; discriminate] |]);
      (split; [split; [lia | intros _; vm_compute; discriminate] |]);
      (split; vm_compute; discriminate).
  - assert (Hnone : LCZ_CLASSES !! k = None).
    { apply not_elem_of_list_to_map_1. cbn [fmap list_fmap fst].
      rewrite !elem_of_cons, elem_of_nil. lia. }
    rewrite Hnone. cbn [default fst snd]. repeat split; try tauto.
    all: intros H; exfalso; apply H; reflexivity.
Qed.

(** ** Filtering the analysis table *)

Lemma filter_twice {A} (f g : A -> bool) (l : list A) :
  List.filter g (List.filter f l) = List.filter (fun x => f x && g x) l.
Proof.
  induction l as [| x l IH]; [reflexivity |].
  cbn [List.filter]. destruct (f x) eqn:Ef; cbn [List.filter andb].
  - destruct (g x); rewrite IH; reflexivity.
  - exact IH.
Qed.

Lemma filter_all {A} (l : list A) : List.filter (fun _ => true) l = l.
Proof. induction l as [| x l IH]; [reflexivity |]. cbn. rewrite IH. reflexivity. Qed.

Lemma narrow_filter {A} (truthy : A -> bool) (eqb : A -> A -> bool)
    (column : row -> A) (c : criterion A) (l : list row) :
  narrow truthy eqb column c l =
    List.filter (fun r => keeps truthy eqb c (column r)) l.
Proof.
  unfold narrow, keeps. destruct (given truthy c); cbn [implb].
  - reflexivity.
  - symmetry. apply filter_all.
Qed.

(** The six blocks of [filter_data] are one pass with the six tests. *)
Lemma filter_data_kept (df : list row) (city region : criterion string)
    (year : criterion Z) (season time : criterion string)
    (lcz_class : criterion Z) :
  filter_data df city region year season time lcz_class =
    List.filter (kept city region year season time lcz_class) df.
Proof.
  unfold filter_data. cbv zeta. rewrite !narrow_filter, !filter_twice.
  apply List.filter_ext. intros r. unfold kept. rewrite !andb_assoc.
  reflexivity.
Qed.

Lemma keeps_passes {A} (truthy : A -> bool) (eqb : A -> A -> bool)
    (c : criterion A) (x : A) :
  (forall a b, eqb a b = true <-> a = b) ->
  keeps truthy eqb c x = true <-> passes truthy c x.
Proof.
  intros Heqb. unfold keeps, passes, given, matches.
  destruct c as [| a | l].
  - cbn. tauto.
  - destruct (truthy a); cbn [implb].
    + rewrite Heqb. tauto.
    + split; [discriminate | reflexivity].
  - destruct l as [| y l]; cbn [implb].
    + split; [intros _ H; contradiction | reflexivity].
    + rewrite existsb_exists. split.
      * intros (z & Hz & E) _. apply Heqb in E. subst z. exact Hz.
      * intros H. exists x. split; [apply H; discriminate | apply Heqb; reflexivity].
Qed.

(** X19.  What [filter_data] returns: the table with exactly those rows
    left out that fail a given argument - every row that passes all given
    arguments (its value in the column is the given value, or one of the
    given values) is kept, as often as it occurs and in the order of the
    table. *)
Theorem filter_data_rows (df : list row) (city region : criterion string)
    (year : criterion Z) (season time : criterion string)
    (lcz_class : criterion Z) :
  filter_data df city region year season time lcz_class =
    List.filter (kept city region year season time lcz_class) df /\
  (forall r,
     kept city region year season time lcz_class r = true <->
     passes truthy_string city (City r) /\
     passes truthy_string region (Region r) /\
     passes truthy_int year (Year r) /\
     passes truthy_string season (Season r) /\
     passes truthy_string time (Time r) /\
     passes truthy_int lcz_class (LCZ_Class r)).
Proof.
  split; [apply filter_data_kept |].
  intros r. unfold kept. rewrite !andb_true_iff.
  rewrite !(keeps_passes truthy_string String.eqb) by apply String.eqb_eq.
  rewrite !(keeps_passes truthy_int Z.eqb) by apply Z.eqb_eq.
  tauto.
Qed.

Lemma keeps_either {A} (truthy : A -> bool) (eqb : A -> A -> bool)
    (c1 c2 : criterion A) (x : A) :
  given truthy c1 = false \/ given truthy c2 = false ->
  keeps truthy eqb (either truthy c1 c2) x =
    keeps truthy eqb c1 x && keeps truthy eqb c2 x.
Proof.
  unfold keeps, either. intros [H | H].
  - rewrite H. reflexivity.
  - destruct (given truthy c1) eqn:E1.
    + rewrite E1, H. cbn [implb]. rewrite andb_true_r. reflexivity.
    + reflexivity.
Qed.

(** X20.  Filtering in steps.  When no column is given in both steps,
    filtering the result of a first [filter_data] again is filtering once
    with the arguments of both steps (as the pages do: first by city, then
    by season and time). *)
Theorem filter_data_in_steps (df : list row)
    (city1 region1 : criterion string) (year1 : criterion Z)
    (season1 time1 : criterion string) (lcz1 : criterion Z)
    (city2 region2 : criterion string) (year2 : criterion Z)
    (season2 time2 : criterion string) (lcz2 : criterion Z) :
  given truthy_string city1 = false \/ given truthy_string city2 = false ->
  given truthy_string region1 = false \/ given truthy_string region2 = false ->
  given truthy_int year1 = false \/ given truthy_int year2 = false ->
  given truthy_string season1 = false \/ given truthy_string season2 = false ->
  given truthy_string time1 = false \/ given truthy_string time2 = false ->
  given truthy_int lcz1 = false \/ given truthy_int lcz2 = false ->
  filter_data (filter_data df city1 region1 year1 season1 time1 lcz1)
              city2 region2 year2 season2 time2 lcz2 =
  filter_data df (either truthy_string city1 city2)
              (either truthy_string region1 region2)
              (either truthy_int year1 year2)
              (either truthy_string season1 season2)
              (either truthy_string time1 time2)
              (either truthy_int lcz1 lcz2).
Proof.
  intros H1 H2 H3 H4 H5 H6. rewrite !filter_data_kept, filter_twice.
  apply List.filter_ext. intros r. unfold kept.
  rewrite (keeps_either _ _ _ _ _ H1), (keeps_either _ _ _ _ _ H2),
    (keeps_either _ _ _ _ _ H3), (keeps_either _ _ _ _ _ H4),
    (keeps_either _ _ _ _ _ H5), (keeps_either _ _ _ _ _ H6).
  repeat match goal with
         | |- context [keeps ?t ?e ?c ?x] =>
             let b := fresh "b" in
             set (b := keeps t e c x); clearbody b
         end.
  repeat match goal with b : bool |- _ => destruct b end; reflexivity.
Qed.

Lemma filter_data_in_steps_witness :
  filter_data (filter_data sample_rows (One "Phoenix"%string) NotGiven NotGiven
                           NotGiven NotGiven NotGiven)
              NotGiven NotGiven NotGiven (One "summer"%string)
              (One "Day"%string) NotGiven =
  filter_data sample_rows
              (either truthy_string (One "Phoenix"%string) NotGiven)
              (either truthy_string NotGiven NotGiven)
              (either truthy_int NotGiven NotGiven)
              (either truthy_string NotGiven (One "summer"%string))
              (either truthy_string NotGiven (One "Day"%string))
              (either truthy_int NotGiven NotGiven).
Proof.
  apply (filter_data_in_steps sample_rows (One "Phoenix"%string) NotGiven
           NotGiven NotGiven NotGiven NotGiven NotGiven NotGiven NotGiven
           (One "summer"%string) (One "Day"%string) NotGiven).
  - right. reflexivity.
  - left. reflexivity.
  - left. reflexivity.
  - left. reflexivity.
  - left. reflexivity.
  - left. reflexivity.
Defined.

(** X21.  The order of two filterings does not matter, and filtering a
    second time with the same arguments changes nothing. *)
Theorem filter_data_order (df : list row)
    (city1 region1 : criterion string) (year1 : criterion Z)
    (season1 time1 : criterion string) (lcz1 : criterion Z)
    (city2 region2 : criterion string) (year2 : criterion Z)
    (season2 time2 : criterion string) (lcz2 : criterion Z) :
  filter_data (filter_data df city1 region1 year1 season1 time1 lcz1)
              city2 region2 year2 season2 time2 lcz2 =
  filter_data (filter_data df city2 region2 year2 season2 time2 lcz2)
              city1 region1 year1 season1 time1 lcz1 /\
  filter_data (filter_data df city1 region1 year1 season1 time1 lcz1)
              city1 region1 year1 season1 time1 lcz1 =
  filter_data df city1 region1 year1 season1 time1 lcz1.
Proof.
  rewrite !filter_data_kept, !filter_twice. split.
  - apply List.filter_ext. intros r. apply andb_comm.
  - apply List.filter_ext. intros r. apply andb_diag.
Qed.

(** X22.  An argument without a truth value does not filter: with an empty
    list, an empty string or the number 0 in a column - as with [None] - the
    rows are not narrowed by that column; when no argument has a truth
    value, the table comes back whole (an empty selection selects
    everything, not nothing). *)
Theorem filter_data_nothing_given (df : list row)
    (city region : criterion string) (year : criterion Z)
    (season time : criterion string) (lcz_class : criterion Z) :
  given truthy_string city = false ->
  given truthy_string region = false ->
  given truthy_int year = false ->
  given truthy_string season = false ->
  given truthy_string time = false ->
  given truthy_int lcz_class = false ->
  filter_data df city region year season time lcz_class = df.
Proof.
  intros H1 H2 H3 H4 H5 H6. unfold filter_data, narrow. cbv zeta.
  rewrite H1, H2, H3, H4, H5, H6. reflexivity.
Qed.

Lemma filter_data_nothing_given_witness :
  filter_data sample_rows (Many []) (One ""%string) (One 0%Z) NotGiven
              (Many []) (Many []) = sample_rows.
Proof.
  apply (filter_data_nothing_given sample_rows (Many []) (One ""%string)
           (One 0%Z) NotGiven (Many []) (Many [])); reflexivity.
Defined.

(** ** Summary cards *)

Lemma filter_data_season_time (df : list row) (season time : string) :
  truthy_string season = true -> truthy_string time = true ->
  filter_data df NotGiven NotGiven NotGiven (One season) (One time) NotGiven =
    List.filter (fun r => String.eqb (Season r) season &&
                          String.eqb (Time r) time) df.
Proof.
  intros Hs Ht. rewrite filter_data_kept. apply List.filter_ext. intros r.
  unfold kept, keeps. cbn [given matches]. rewrite Hs, Ht.
  cbn [implb andb]. rewrite andb_true_r. reflexivity.
Qed.

Lemma guarded_mean (xs : list Q) :
  (if (0 <? length xs)%nat then series_mean xs else 0) = mean_or_zero xs.
Proof. destruct xs; reflexivity. Qed.

Lemma sum_negated (l : list row) :
  fold_right Qplus 0 (map UDI l) == - fold_right Qplus 0 (map UMI l).
Proof.
  induction l as [| r l IH]; cbn [map fold_right]; [reflexivity |].
  rewrite IH. unfold UDI. ring.
Qed.

Lemma mean_or_zero_negated (l : list row) :
  mean_or_zero (map UDI l) == - mean_or_zero (map UMI l).
Proof.
  destruct l as [| r l]; [reflexivity |].
  unfold mean_or_zero. cbn [map]. unfold series_mean.
  change (UDI r :: map UDI l) with (map UDI (r :: l)).
  change (UMI r :: map UMI l) with (map UMI (r :: l)).
  rewrite sum_negated, !length_map. unfold Qdiv. ring.
Qed.

(** X24.  The summer cards are the column means over the rows that
    [filter_data] selects for the season ["summer"] and the time ["Day"]
    (respectively ["Night"]), and 0 when it selects none; the UDI cards are
    the means of the derived column [UDI]. *)
Theorem cards_agree_with_filter (df : list row) :
  let m := create_metrics_cards_data df None in
  let day := filter_data df NotGiven NotGiven NotGiven (One "summer"%string)
                         (One "Day"%string) NotGiven in
  let night := filter_data df NotGiven NotGiven NotGiven (One "summer"%string)
                           (One "Night"%string) NotGiven in
  suhi_day m = mean_or_zero (map SUHI day) /\
  suhi_night m = mean_or_zero (map SUHI night) /\
  umi_day m = mean_or_zero (map UMI day) /\
  umi_night m = mean_or_zero (map UMI night) /\
  udi_day m == mean_or_zero (map UDI day) /\
  udi_night m == mean_or_zero (map UDI night).
Proof.
  cbv zeta. rewrite !filter_data_season_time by reflexivity.
  unfold create_metrics_cards_data. cbv zeta.
  cbn [suhi_day suhi_night umi_day umi_night udi_day udi_night].
  set (day := List.filter _ df). set (night := List.filter _ df).
  rewrite !mean_or_zero_negated.
  rewrite <- !guarded_mean, !length_map.
  repeat split; try reflexivity.
  - destruct (0 <? length day)%nat; reflexivity.
  - destruct (0 <? length night)%nat; reflexivity.
Qed.

(** X25.  The cards for a city are the cards of the table that
    [filter_data] gives for that city; with an empty city name, as with
    [None], they are the cards of the whole table. *)
Theorem cards_for_city (df : list row) (c : string) :
  create_metrics_cards_data df (Some c) =
    create_metrics_cards_data
      (filter_data df (One c) NotGiven NotGiven NotGiven NotGiven NotGiven)
      None /\
  create_metrics_cards_data df (Some ""%string) =
    create_metrics_cards_data df None.
Proof.
  split; [| reflexivity].
  unfold create_metrics_cards_data, filter_data, narrow. cbv zeta.
  cbn [given matches]. reflexivity.
Qed.

(** ** Grouping the variables *)

Lemma prefix_append (p v : string) :
  String.prefix p v = true -> exists w, v = String.append p w.
Proof.
  revert v. induction p as [| a p IH]; intros v H.
  - exists v. reflexivity.
  - destruct v as [| b v]; [discriminate |]. cbn [String.prefix] in H.
    destruct (Ascii.ascii_dec a b) as [-> | _]; [| discriminate].
    destruct (IH v H) as [w ->]. exists w. reflexivity.
Qed.

(** X26.  The six groups chosen by a name prefix ([LST_Day], [LST_Night],
    [LCZ], [NDVI], [Precip], [ET]) never share a variable, and every group
    holds names of the dataset only. *)
Theorem prefix_groups_disjoint (variables : list string)
    (name1 name2 : string) (group1 group2 : list string) (v : string) :
  In (name1, group1) (get_netcdf_variables variables) ->
  In (name2, group2) (get_netcdf_variables variables) ->
  name1 <> name2 ->
  name1 <> "Humidity"%string -> name2 <> "Humidity"%string ->
  In v group1 ->
  In v variables /\ ~ In v group2.
Proof.
  unfold get_netcdf_variables. cbn [In].
  intros H1 H2 Hne Hh1 Hh2 Hv.
  repeat (destruct H1 as [H1 | H1]); try contradiction;
    injection H1 as <- <-; try congruence;
    apply filter_In in Hv; destruct Hv as [Hin Hp];
    (split; [exact Hin |]);
    apply prefix_append in Hp; destruct Hp as [w ->];
    repeat (destruct H2 as [H2 | H2]); try contradiction;
    injection H2 as <- <-; try congruence;
    rewrite filter_In; intros [_ Hq]; vm_compute in Hq; discriminate.
Qed.

Lemma prefix_groups_disjoint_witness :
  In "LST_Day_summer_2020"%string
     ["LST_Day_summer_2020"; "LST_Night_summer_2020"; "LCZ_2020"]%string /\
  ~ In "LST_Day_summer_2020"%string
       (List.filter (String.prefix "LST_Night")
          ["LST_Day_summer_2020"; "LST_Night_summer_2020"; "LCZ_2020"]%string).
Proof.
  apply (prefix_groups_disjoint
           ["LST_Day_summer_2020"; "LST_Night_summer_2020"; "LCZ_2020"]%string
           "LST_Day" "LST_Night"
           (List.filter (String.prefix "LST_Day")
              ["LST_Day_summer_2020"; "LST_Night_summer_2020";
               "LCZ_2020"]%string)
           (List.filter (String.prefix "LST_Night")
              ["LST_Day_summer_2020"; "LST_Night_summer_2020";
               "LCZ_2020"]%string)).
  - left. reflexivity.
  - right. left. reflexivity.
  - discriminate.
  - discriminate.
  - discriminate.
  - left. reflexivity.
Defined.
